(** * Grade summary tool: a shallow embedding of [grade_summary_tool.py]

    The development follows [create_grade_summary] step by step: the header
    search and the two roster extraction paths over a header-less sheet, the
    three score collectors over labelled sheets, the merge into the summary
    table, and [export_summary_with_stats].

    Python strings are lists of Unicode code points, so that [len], [in],
    [strip] and [replace] count and compare what Python counts and compares.
    The Unicode tables behind [str.isdigit], [str.isspace] and [str.lower],
    and the objects held by the cells of a labelled sheet, are an interface
    ([Python]); every theorem holds for any implementation of it. *)

From Stdlib Require Import NArith ZArith DecimalString.
From stdpp Require Import base option list strings gmap sorting.

(** ** Python strings *)

Abbreviation char := N.
Abbreviation pystr := (list N).

(** Source literals are written as UTF-8 text and decoded to code points. *)
Fixpoint utf8_decode (bs : list N) : pystr :=
  match bs with
  | [] => []
  | b0 :: r0 =>
      if (b0 <? 128)%N then b0 :: utf8_decode r0
      else
        match r0 with
        | [] => [b0]
        | b1 :: r1 =>
            if (b0 <? 224)%N
            then ((b0 - 192) * 64 + (b1 - 128))%N :: utf8_decode r1
            else
              match r1 with
              | [] => [b0]
              | b2 :: r2 =>
                  if (b0 <? 240)%N
                  then ((b0 - 224) * 4096 + (b1 - 128) * 64 + (b2 - 128))%N
                         :: utf8_decode r2
                  else
                    match r2 with
                    | [] => [b0]
                    | b3 :: r3 =>
                        ((b0 - 240) * 262144 + (b1 - 128) * 4096
                         + (b2 - 128) * 64 + (b3 - 128))%N :: utf8_decode r3
                    end
              end
        end
  end.

Definition py (s : string) : pystr :=
  utf8_decode (map Ascii.N_of_ascii (String.list_ascii_of_string s)).

(** [a == b] on strings. *)
Definition str_eqb (a b : pystr) : bool := bool_decide (a = b).

(** Truth value of a string: the empty string is false. *)
Definition truthy (s : pystr) : bool :=
  match s with [] => false | _ :: _ => true end.

(** [s.startswith(p)]. *)
Fixpoint startswith (p s : pystr) : bool :=
  match p, s with
  | [], _ => true
  | _ :: _, [] => false
  | a :: p', b :: s' => (a =? b)%N && startswith p' s'
  end.

(** [s.endswith(p)]. *)
Definition endswith (p s : pystr) : bool := startswith (rev p) (rev s).

(** [p in s]: [p] occurs in [s] as a contiguous run. *)
Fixpoint contains (p s : pystr) : bool :=
  startswith p s || match s with [] => false | _ :: s' => contains p s' end.

(** [any(keyword in s for keyword in keywords)]. *)
Definition any_in (keywords : list pystr) (s : pystr) : bool :=
  existsb (fun keyword => contains keyword s) keywords.

(** [s.replace(p, '')] for a non-empty [p]: occurrences are removed from left
    to right and do not overlap; [skip] counts the code points of the
    occurrence being removed that are still to be dropped. *)
Fixpoint remove_from (p : pystr) (skip : nat) (s : pystr) : pystr :=
  match s with
  | [] => []
  | c :: s' =>
      match skip with
      | S k => remove_from p k s'
      | O =>
          if startswith p s then remove_from p (length p - 1) s'
          else c :: remove_from p 0 s'
      end
  end.

Definition remove_all (p s : pystr) : pystr := remove_from p 0 s.

(** [Path(f).name]: what follows the last separator. *)
Fixpoint path_name_from (acc : pystr) (f : pystr) : pystr :=
  match f with
  | [] => acc
  | c :: f' => if (c =? 47)%N then path_name_from [] f' else path_name_from (acc ++ [c]) f'
  end.

Definition path_name (f : pystr) : pystr := path_name_from [] f.

(** Order of [sorted] on strings: lexicographic by code point. *)
Fixpoint str_leb (a b : pystr) : bool :=
  match a, b with
  | [], _ => true
  | _ :: _, [] => false
  | x :: a', y :: b' => (x <? y)%N || ((x =? y)%N && str_leb a' b')
  end.

Definition str_le (a b : pystr) : Prop := str_leb a b = true.

#[global] Instance str_le_dec : RelDecision str_le.
Proof. intros a b. unfold str_le. apply _. Defined.

(** [sorted(l)]. *)
Definition sorted (l : list pystr) : list pystr := merge_sort str_le l.

(** ** The Python environment *)

Class Python := {
  (** [c.isdigit()] for one code point *)
  isdigit : char -> bool;
  (** [c.isspace()] for one code point *)
  isspace : char -> bool;
  (** [s.lower()] *)
  lower : pystr -> pystr;
  (** what a cell of a labelled sheet holds when it is not missing *)
  object : Type;
  (** [str(x)] *)
  str : object -> pystr;
}.

Section Strings.
Context `{Python}.

(** [s.isdigit()]: non-empty and made of digits only. *)
Definition str_isdigit (s : pystr) : bool := truthy s && forallb isdigit s.

(** [any(char.isdigit() for char in s)]. *)
Definition any_digit (s : pystr) : bool := existsb isdigit s.

Fixpoint lstrip (s : pystr) : pystr :=
  match s with
  | [] => []
  | c :: s' => if isspace c then lstrip s' else s
  end.

(** [s.strip()]. *)
Definition strip (s : pystr) : pystr := rev (lstrip (rev (lstrip s))).
End Strings.

(** ** Sheets and records *)

(** A header-less sheet ([header=None]) after [astype(str)]: every cell is a
    string, and a missing cell reads [nan]. *)
Definition RawGrid := list (list pystr).

(** The keys of [col_mapping]: 学号, 姓名, 班级, 性别, 序号. *)
Inductive field := F_id | F_name | F_class | F_gender | F_seq.

#[global] Instance field_eq_dec : EqDecision field.
Proof. solve_decision. Defined.

Definition field_code (f : field) : nat :=
  match f with F_id => 0 | F_name => 1 | F_class => 2 | F_gender => 3 | F_seq => 4 end.

Definition field_of_code (n : nat) : field :=
  match n with 0 => F_id | 1 => F_name | 2 => F_class | 3 => F_gender | _ => F_seq end.

#[global] Instance field_countable : Countable field.
Proof. apply (inj_countable' field_code field_of_code). by intros []. Defined.

(** The dictionary [student_data]. *)
Record StudentRecord := {
  student_id : pystr;     (* 学号 *)
  student_name : pystr;   (* 姓名 *)
  original_seq : pystr;   (* 原序号 *)
  class_info : pystr;     (* 班级 *)
  gender_info : pystr;    (* 性别 *)
  source_file : pystr;    (* 来源文件 *)
}.

Section Roster.
Context `{Python}.

(** *** Header search (方法一) *)

(** The [if]/[elif] chain over one lower-cased, trimmed cell. *)
Definition header_field (cell_str : pystr) : option field :=
  if contains (py "学号") cell_str || contains (py "student") cell_str
     || contains (py "id") cell_str then Some F_id
  else if contains (py "姓名") cell_str || contains (py "name") cell_str
          || contains (py "名字") cell_str then Some F_name
  else if contains (py "班级") cell_str || contains (py "class") cell_str
          || contains (py "专业") cell_str then Some F_class
  else if contains (py "性别") cell_str || contains (py "gender") cell_str
          || contains (py "男女") cell_str then Some F_gender
  else if contains (py "序号") cell_str || contains (py "no") cell_str
          || contains (py "编号") cell_str then Some F_seq
  else None.

(** [for j, cell_value in enumerate(row_data)], from column [j] on. *)
Fixpoint scan_header_cells (j : nat) (row_data : list pystr)
    (found_headers : nat) (temp_mapping : gmap field nat) : nat * gmap field nat :=
  match row_data with
  | [] => (found_headers, temp_mapping)
  | cell_value :: rest =>
      let cell_str := lower (strip cell_value) in
      match header_field cell_str with
      | Some f => scan_header_cells (S j) rest (S found_headers) (<[f := j]> temp_mapping)
      | None => scan_header_cells (S j) rest found_headers temp_mapping
      end
  end.

Definition scan_header_row (row_data : list pystr) : nat * gmap field nat :=
  scan_header_cells 0 row_data 0 ∅.

(** [for i in range(...)] over the rows still to visit, the first of which
    has index [i]; the loop breaks at the first row with two headers. *)
Fixpoint find_header_from (i : nat) (rows : RawGrid) : option (nat * gmap field nat) :=
  match rows with
  | [] => None
  | row_data :: rest =>
      let '(found_headers, temp_mapping) := scan_header_row row_data in
      if 2 <=? found_headers then Some (i, temp_mapping)
      else find_header_from (S i) rest
  end.

(** [header_row_idx] and [col_mapping] after the search of the first 20 rows. *)
Definition find_header (df : RawGrid) : option (nat * gmap field nat) :=
  find_header_from 0 (take (20 `min` length df) df).

(** *** The student number test, shared by both paths *)

Definition valid_student_id (cell_value : pystr) : bool :=
  truthy cell_value && negb (str_eqb cell_value (py "nan"))
  && negb (str_eqb cell_value [])
  && (8 <=? length cell_value)
  && any_digit cell_value
  && negb (str_isdigit (remove_all (py "-") (remove_all (py ".") cell_value))).

(** *** Extraction by column (header found, with a 学号 column) *)

(** The text of a mapped column in this row, when the column is mapped and
    inside the row. *)
Definition mapped_cell (col_mapping : gmap field nat) (f : field)
    (row_data : list pystr) : option pystr :=
  j ← col_mapping !! f; strip <$> row_data !! j.

(** The body of the row loop: the records this row appends. *)
Definition mapped_row (col_mapping : gmap field nat) (student_id_col : nat)
    (cl_file : pystr) (row_data : list pystr) : list StudentRecord :=
  match row_data !! student_id_col with
  | None => []
  | Some cell =>
      let cell_value := strip cell in
      if valid_student_id cell_value then
        let student_name :=
          match mapped_cell col_mapping F_name row_data with
          | Some name_value =>
              if truthy name_value && negb (str_eqb name_value (py "nan"))
              then name_value else []
          | None => []
          end in
        let class_info :=
          match mapped_cell col_mapping F_class row_data with
          | Some class_value =>
              if truthy class_value && negb (str_eqb class_value (py "nan"))
              then class_value else []
          | None => []
          end in
        let gender_info :=
          match mapped_cell col_mapping F_gender row_data with
          | Some gender_value =>
              if truthy gender_value && negb (str_eqb gender_value (py "nan"))
              then gender_value else []
          | None => []
          end in
        let original_seq :=
          match mapped_cell col_mapping F_seq row_data with
          | Some seq_value =>
              if truthy seq_value && negb (str_eqb seq_value (py "nan"))
                 && str_isdigit seq_value
              then seq_value else []
          | None => []
          end in
        [ {| student_id := cell_value; student_name := student_name;
             original_seq := original_seq; class_info := class_info;
             gender_info := gender_info; source_file := path_name cl_file |} ]
      else []
  end.

(** The rows [range(header_row + 1, min(header_row + 31, len(df)))]. *)
Definition search_window (header_row : nat) (df : RawGrid) : RawGrid :=
  let search_end := (header_row + 31) `min` length df in
  take (search_end - (header_row + 1)) (drop (header_row + 1) df).

(** The row loop: each row appends to [cl_students]. *)
Definition extract_mapped (col_mapping : gmap field nat) (student_id_col : nat)
    (cl_file : pystr) (header_row_idx : nat) (df : RawGrid)
    (cl_students : list StudentRecord) : list StudentRecord :=
  foldl (fun students row_data =>
           students ++ mapped_row col_mapping student_id_col cl_file row_data)
        cl_students (search_window header_row_idx df).

(** *** Row scan (方法二) *)

(** The first cell, rows first and then columns, whose text holds a
    student-number keyword: [(header_row, student_id_col)]. *)
Fixpoint find_id_cell_in_row (j : nat) (row_data : list pystr) : option nat :=
  match row_data with
  | [] => None
  | cell_value :: rest =>
      let cell_str := lower (strip cell_value) in
      if contains (py "学号") cell_str || contains (py "student") cell_str
         || contains (py "id") cell_str
      then Some j
      else find_id_cell_in_row (S j) rest
  end.

Fixpoint find_id_cell_from (i : nat) (rows : RawGrid) : option (nat * nat) :=
  match rows with
  | [] => None
  | row_data :: rest =>
      match find_id_cell_in_row 0 row_data with
      | Some j => Some (i, j)
      | None => find_id_cell_from (S i) rest
      end
  end.

Definition find_id_cell (df : RawGrid) : option (nat * nat) :=
  find_id_cell_from 0 (take (20 `min` length df) df).

(** The four fields the row scan fills in. *)
Record inferred := {
  i_name : pystr;
  i_seq : pystr;
  i_class : pystr;
  i_gender : pystr;
}.

Definition name_excluded : list pystr :=
  [py "class"; py "grade"; py "班"; py "级"; py "系"; py "院"; py "专业"].

Definition class_keywords : list pystr :=
  [py "T"; py "工商"; py "管理"; py "经济"; py "金融"; py "会计"].

(** The body of [for k in range(len(row_data))]. *)
Definition infer_cell (student_id_col k : nat) (cell : pystr) (st : inferred) : inferred :=
  if negb (k =? student_id_col) && truthy cell && negb (str_eqb cell (py "nan")) then
    let potential_value := strip cell in
    let is_student_id :=
      (8 <=? length potential_value) && any_digit potential_value
      && negb (str_isdigit (remove_all (py "-") (remove_all (py ".") potential_value))) in
    if negb (truthy (i_name st))
       && negb (is_student_id || str_isdigit (remove_all (py ".") potential_value))
    then
      if (2 <=? length potential_value) && (length potential_value <=? 15) then
        if negb (any_in name_excluded (lower potential_value))
        then {| i_name := potential_value; i_seq := i_seq st;
                i_class := i_class st; i_gender := i_gender st |}
        else st
      else st
    else if negb (truthy (i_seq st)) && str_isdigit potential_value
            && (length potential_value <=? 3)
    then {| i_name := i_name st; i_seq := potential_value;
            i_class := i_class st; i_gender := i_gender st |}
    else if negb (truthy (i_gender st))
            && bool_decide (potential_value ∈ [py "男"; py "女"])
    then {| i_name := i_name st; i_seq := i_seq st;
            i_class := i_class st; i_gender := potential_value |}
    else if negb (truthy (i_class st)) then
      if any_in class_keywords potential_value
         && (length potential_value <=? 20) && (3 <=? length potential_value)
      then {| i_name := i_name st; i_seq := i_seq st;
              i_class := potential_value; i_gender := i_gender st |}
      else st
    else st
  else st.

Fixpoint infer_cells (student_id_col k : nat) (row_data : list pystr)
    (st : inferred) : inferred :=
  match row_data with
  | [] => st
  | cell :: rest =>
      infer_cells student_id_col (S k) rest (infer_cell student_id_col k cell st)
  end.

Definition infer_fields (student_id_col : nat) (row_data : list pystr) : inferred :=
  infer_cells student_id_col 0 row_data
    {| i_name := []; i_seq := []; i_class := []; i_gender := [] |}.

(** The body of the row loop of the scan: the records this row appends. *)
Definition fallback_row (student_id_col : nat) (cl_file : pystr)
    (row_data : list pystr) : list StudentRecord :=
  match row_data !! student_id_col with
  | None => []
  | Some cell =>
      let cell_str := strip cell in
      if valid_student_id cell_str then
        let st := infer_fields student_id_col row_data in
        if truthy cell_str then
          [ {| student_id := cell_str; student_name := i_name st;
               original_seq := i_seq st; class_info := i_class st;
               gender_info := i_gender st; source_file := path_name cl_file |} ]
        else []
      else []
  end.

Definition extract_fallback (cl_file : pystr) (df : RawGrid)
    (cl_students : list StudentRecord) : list StudentRecord :=
  match find_id_cell df with
  | Some (header_row, student_id_col) =>
      foldl (fun students row_data =>
               students ++ fallback_row student_id_col cl_file row_data)
            cl_students (search_window header_row df)
  | None => cl_students
  end.

(** *** One roster sheet, once it has been read *)

Definition extract_students (cl_file : pystr) (df : RawGrid)
    (cl_students : list StudentRecord) : list StudentRecord :=
  match find_header df with
  | Some (header_row_idx, col_mapping) =>
      match col_mapping !! F_id with
      | Some student_id_col =>
          extract_mapped col_mapping student_id_col cl_file header_row_idx df cl_students
      | None => extract_fallback cl_file df cl_students
      end
  | None => extract_fallback cl_file df cl_students
  end.
End Roster.

(** ** Reading files *)

Inductive exn :=
| KeyError (label : pystr)      (* a row has no column of that label *)
| NoSheet                       (* no engine was tried: [df] is still [None] *)
| ReadError (code : N).         (* whatever [pd.read_excel] raised *)

Inductive engine := openpyxl | xlrd.

(** [engines = ['openpyxl', 'xlrd'] if f.endswith('.xls') else ['openpyxl']]. *)
Definition engines_for (f : pystr) : list engine :=
  if endswith (py ".xls") f then [openpyxl; xlrd] else [openpyxl].

(** The engine loop: the first engine that reads the file gives the sheet;
    only the failure of the last engine is raised. *)
Fixpoint read_excel {A : Type} (read : engine -> exn + A) (engines : list engine) : exn + A :=
  match engines with
  | [] => inl NoSheet
  | [engine] => read engine
  | engine :: rest =>
      match read engine with
      | inr df => inr df
      | inl _ => read_excel read rest
      end
  end.

(** A computation over the collection [S] being filled, which may raise; what
    it wrote before raising stays written. *)
Definition Proc (S A : Type) : Type := S -> S * (exn + A).

Definition ret {S A} (a : A) : Proc S A := fun s => (s, inr a).

Definition bind {S A B} (m : Proc S A) (k : A -> Proc S B) : Proc S B :=
  fun s =>
    match m s with
    | (s', inl e) => (s', inl e)
    | (s', inr a) => k a s'
    end.

Definition lift {S A} (r : exn + A) : Proc S A := fun s => (s, r).

Definition modify {S} (f : S -> S) : Proc S unit := fun s => (f s, inr tt).

Notation "x <~ m ; k" := (bind m (fun x => k))
  (at level 20, m at level 100, k at level 200, only parsing).

(** [for x in l: body(x)]. *)
Fixpoint for_each {S A} (body : A -> Proc S unit) (l : list A) : Proc S unit :=
  match l with
  | [] => ret tt
  | x :: l' => _ <~ body x; for_each body l'
  end.

(** A console line of an [except] branch, kept as the file that was being
    processed and the exception that was caught. *)
Definition failure : Type := pystr * exn.

(** [try: body except Exception as e: print(...)], for one file. *)
Definition try_file {S} (f : pystr) (body : Proc S unit)
    (st : S * list failure) : S * list failure :=
  match body (fst st) with
  | (s', inl e) => (s', snd st ++ [(path_name f, e)])
  | (s', inr _) => (s', snd st)
  end.

Section Pipeline.
Context `{Python}.

(** A labelled sheet: the column labels of the first row and the data
    rows, each as wide as the labels; [None] is a missing cell, one for which
    [pd.notna] is false. Labels are strings, and [read_excel] never yields
    the same label twice. *)
Record Table := {
  columns : list pystr;
  rows : list (list (option object));
}.

(** A file of the directory: its path and what each engine reads from it,
    without labels (roster) and with labels (scores). *)
Record xfile := {
  fpath : pystr;
  read_raw : engine -> exn + RawGrid;
  read_table : engine -> exn + Table;
}.

Fixpoint index_of (label : pystr) (labels : list pystr) : option nat :=
  match labels with
  | [] => None
  | l :: rest => if str_eqb l label then Some 0 else S <$> index_of label rest
  end.

(** [row[label]]. *)
Definition row_get (df : Table) (row : list (option object)) (label : pystr)
    : exn + option object :=
  match index_of label (columns df) with
  | None => inl (KeyError label)
  | Some j => inr (mjoin (row !! j))
  end.

(** *** Step 1: the roster files *)

Definition process_cl_file (f : xfile) : Proc (list StudentRecord) unit :=
  df <~ lift (read_excel (read_raw f) (engines_for (fpath f)));
  modify (extract_students (fpath f) df).

Definition collect_students (cl_files : list xfile) : list StudentRecord * list failure :=
  foldl (fun st f => try_file (fpath f) (process_cl_file f) st) ([], []) cl_files.

(** *** Steps 2 and 3: the SA and LA files (the two loops are the same text) *)

(** The first label holding 得分. *)
Fixpoint find_score_col (labels : list pystr) : option pystr :=
  match labels with
  | [] => None
  | col :: rest => if contains (py "得分") col then Some col else find_score_col rest
  end.

(** [if student_id not in scores: scores[student_id] = {}] and then
    [scores[student_id][key] = score]. *)
Definition record_score (student_id key : pystr) (score : object)
    (scores : gmap pystr (gmap pystr object)) : gmap pystr (gmap pystr object) :=
  <[student_id := <[key := score]> (default ∅ (scores !! student_id))]> scores.

(** The body of [for _, row in df.iterrows()]: the student number is looked
    up first, and the score only when the student number is not missing. *)
Definition keyed_row (df : Table) (score_col key : pystr)
    (row : list (option object)) : Proc (gmap pystr (gmap pystr object)) unit :=
  id_cell <~ lift (row_get df row (py "学号"));
  match id_cell with
  | Some id =>
      score_cell <~ lift (row_get df row score_col);
      match score_cell with
      | Some score => modify (record_score (strip (str id)) key score)
      | None => ret tt
      end
  | None => ret tt
  end.

(** [Path(f).name.replace('.xls', '')]. *)
Definition category_key (f : pystr) : pystr := remove_all (py ".xls") (path_name f).

Definition process_keyed_file (f : xfile) : Proc (gmap pystr (gmap pystr object)) unit :=
  df <~ lift (read_excel (read_table f) (engines_for (fpath f)));
  match find_score_col (columns df) with
  | Some score_col =>
      if truthy score_col
      then for_each (keyed_row df score_col (category_key (fpath f))) (rows df)
      else ret tt
  | None => ret tt
  end.

Definition collect_keyed (files : list xfile)
    : gmap pystr (gmap pystr object) * list failure :=
  foldl (fun st f => try_file (fpath f) (process_keyed_file f) st) (∅, []) files.

(** *** Step 4: the TL files *)

Definition tl_row (df : Table) (row : list (option object))
    : Proc (gmap pystr object) unit :=
  id_cell <~ lift (row_get df row (py "学号"));
  match id_cell with
  | Some id =>
      score_cell <~ lift (row_get df row (py "讨论/"));
      match score_cell with
      | Some score => modify (<[strip (str id) := score]>)
      | None => ret tt
      end
  | None => ret tt
  end.

Definition process_tl_file (f : xfile) : Proc (gmap pystr object) unit :=
  df <~ lift (read_excel (read_table f) (engines_for (fpath f)));
  if bool_decide (py "讨论/" ∈ columns df)
  then for_each (tl_row df) (rows df)
  else ret tt.

Definition collect_tl (tl_files : list xfile) : gmap pystr object * list failure :=
  foldl (fun st f => try_file (fpath f) (process_tl_file f) st) (∅, []) tl_files.
End Pipeline.

(** ** Step 5: the summary table *)

Section Summary.
Context `{Python}.

(** A value of the summary table: a Python integer (the new row number and
    the default score), a string, or a score as it was read. *)
Inductive cell :=
| C_int (n : nat)
| C_str (s : pystr)
| C_obj (o : object).

Record DataFrame := {
  df_columns : list pystr;
  df_rows : list (list cell);
}.

Definition fixed_columns : list pystr :=
  [py "序号"; py "原序号"; py "学号"; py "姓名"; py "班级"; py "性别"; py "来源文件"].

(** [set([k for scores in d.values() for k in scores.keys()])]. *)
Definition category_keys (scores : gmap pystr (gmap pystr object)) : gset pystr :=
  list_to_set ((map_to_list scores).*2 ≫= (fun sc => (map_to_list sc).*1)).

(** [sorted(list(set(...)))]: the columns of one keyed category. *)
Definition all_files_of (scores : gmap pystr (gmap pystr object)) : list pystr :=
  sorted (elements (category_keys scores)).

Definition summary_columns (all_sa_files all_la_files : list pystr) : list pystr :=
  fixed_columns ++ all_sa_files ++ all_la_files ++ [py "TL讨论"].

(** The score of one student under one category key, [0] when there is none. *)
Definition keyed_score (scores : gmap pystr (gmap pystr object))
    (student_id file : pystr) : cell :=
  match scores !! student_id with
  | Some sc =>
      match sc !! file with
      | Some score => C_obj score
      | None => C_int 0
      end
  | None => C_int 0
  end.

(** [tl_scores.get(student_id, 0)]. *)
Definition tl_score (tl_scores : gmap pystr object) (student_id : pystr) : cell :=
  match tl_scores !! student_id with
  | Some score => C_obj score
  | None => C_int 0
  end.

(** The row of one student; [i] is the new, one-based row number. *)
Definition summary_row (all_sa_files all_la_files : list pystr)
    (sa_scores la_scores : gmap pystr (gmap pystr object))
    (tl_scores : gmap pystr object) (i : nat) (student : StudentRecord) : list cell :=
  [ C_int i; C_str (original_seq student); C_str (student_id student);
    C_str (student_name student); C_str (class_info student);
    C_str (gender_info student); C_str (source_file student) ]
  ++ map (keyed_score sa_scores (student_id student)) all_sa_files
  ++ map (keyed_score la_scores (student_id student)) all_la_files
  ++ [tl_score tl_scores (student_id student)].

(** [for i, student in enumerate(cl_students, 1)]. *)
Definition summary_data (all_sa_files all_la_files : list pystr)
    (sa_scores la_scores : gmap pystr (gmap pystr object))
    (tl_scores : gmap pystr object) (cl_students : list StudentRecord)
    : list (list cell) :=
  imap (fun i student =>
          summary_row all_sa_files all_la_files sa_scores la_scores tl_scores
            (S i) student)
       cl_students.

Definition merge_scores (cl_students : list StudentRecord)
    (sa_scores la_scores : gmap pystr (gmap pystr object))
    (tl_scores : gmap pystr object) : DataFrame :=
  let all_sa_files := all_files_of sa_scores in
  let all_la_files := all_files_of la_scores in
  {| df_columns := summary_columns all_sa_files all_la_files;
     df_rows := summary_data all_sa_files all_la_files
                  sa_scores la_scores tl_scores cl_students |}.

(** ** The whole run *)

Definition cl_files (all_files : list xfile) : list xfile :=
  filter (fun f => contains (py "CL") (fpath f) && endswith (py ".xls") (fpath f) = true)
         all_files.

Definition sa_files (all_files : list xfile) : list xfile :=
  filter (fun f => contains (py "SA") (fpath f) && endswith (py ".xls") (fpath f) = true)
         all_files.

Definition la_files (all_files : list xfile) : list xfile :=
  filter (fun f => contains (py "LA") (fpath f) && endswith (py ".xls") (fpath f) = true)
         all_files.

Definition tl_files (all_files : list xfile) : list xfile :=
  filter (fun f => contains (py "TL") (fpath f) = true) all_files.

(** [create_grade_summary], from the files that [discover_files] lists. *)
Definition create_grade_summary (all_files : list xfile) : DataFrame :=
  let cl_students := (collect_students (cl_files all_files)).1 in
  let sa_scores := (collect_keyed (sa_files all_files)).1 in
  let la_scores := (collect_keyed (la_files all_files)).1 in
  let tl_scores := (collect_tl (tl_files all_files)).1 in
  merge_scores cl_students sa_scores la_scores tl_scores.

(** [export_summary_with_stats]: the files it writes ([to_excel] with
    [index=False] writes the labels and then the rows). An empty table
    returns before anything is written. *)
Definition export_summary_with_stats (summary_df : DataFrame)
    (output_filename : pystr) : list (pystr * DataFrame) :=
  if length (df_rows summary_df) =? 0 then []
  else [(output_filename, summary_df)].

Definition default_output : pystr := py "学生成绩汇总表.xlsx".

(** [main]: the files written by one run. *)
Definition main (all_files : list xfile) : list (pystr * DataFrame) :=
  export_summary_with_stats (create_grade_summary all_files) default_output.
End Summary.

(** ** A concrete environment

    Digits, blanks and letter case of ASCII, and cells that hold integers or
    strings. It agrees with Python on text made of ASCII and of characters
    that are neither digits, blanks nor cased (such as the Chinese
    keywords of the source). *)

Inductive value := Int (z : Z) | Str (s : pystr).

Definition ascii_isdigit (c : char) : bool := (48 <=? c)%N && (c <=? 57)%N.

Definition ascii_isspace (c : char) : bool :=
  (c =? 32)%N || ((9 <=? c)%N && (c <=? 13)%N) || ((28 <=? c)%N && (c <=? 31)%N).

Definition ascii_lower (s : pystr) : pystr :=
  map (fun c => if (65 <=? c)%N && (c <=? 90)%N then (c + 32)%N else c) s.

Definition value_str (v : value) : pystr :=
  match v with
  | Int z => py (NilZero.string_of_int (Z.to_int z))
  | Str s => s
  end.

Definition ascii_python : Python := {|
  isdigit := ascii_isdigit;
  isspace := ascii_isspace;
  lower := ascii_lower;
  object := value;
  str := value_str;
|}.

(** ** Notions used to state the properties *)

Section Notions.
Context `{Python}.

(** The field, if any, that the header search gives to column [j] of a row. *)
Definition cell_field (row_data : list pystr) (j : nat) : option field :=
  cell_value ← row_data !! j; header_field (lower (strip cell_value)).

(** How many cells of a row hold a header keyword. *)
Definition matching_cells (row_data : list pystr) : nat :=
  length (filter (fun cell_value => is_Some (header_field (lower (strip cell_value))))
                 row_data).

(** How many of the five fields are matched by some cell of a row. *)
Definition distinct_fields (row_data : list pystr) : nat :=
  length (filter (fun f => Exists (fun cell_value =>
                                     header_field (lower (strip cell_value)) = Some f)
                                  row_data)
                 [F_id; F_name; F_class; F_gender; F_seq]).

(** The header row as the specification words it: the first of the first
    20 rows in which two distinct fields are matched. *)
Definition spec_header_row (df : RawGrid) : option nat :=
  fst <$> list_find (fun row_data => 2 <= distinct_fields row_data) (take 20 df).

(** The student number test as the specification words it, on the text of
    a cell: not empty, not the missing marker, at least 8 long, with a
    digit, and with a character that is not a digit once every [.] and [-]
    is left out. *)
Definition spec_valid_id (s : pystr) : Prop :=
  s ≠ [] ∧ s ≠ py "nan" ∧ 8 <= length s
  ∧ (∃ c, c ∈ s ∧ isdigit c = true)
  ∧ (∃ c, c ∈ filter (fun c => c ≠ 46%N ∧ c ≠ 45%N) s ∧ isdigit c = false).


(** The trimmed text of the first cell of a row, the student number cell,
    the empty cells and the missing cells apart, that satisfies [P]; the
    empty string when there is none. *)
Fixpoint first_other_cell (P : pystr -> bool) (student_id_col k : nat)
    (row_data : list pystr) : pystr :=
  match row_data with
  | [] => []
  | cell :: rest =>
      if negb (k =? student_id_col) && truthy cell && negb (str_eqb cell (py "nan"))
         && P (strip cell)
      then strip cell
      else first_other_cell P student_id_col (S k) rest
  end.

(** The gender test of the row scan. *)
Definition is_gender (s : pystr) : bool := bool_decide (s ∈ [py "男"; py "女"]).

(** What a row of a labelled sheet has to record under the score column
    [score_col]: its student number and its score, when neither is
    missing. *)
Definition row_entry (df : Table) (score_col : pystr)
    (row : list (option object)) : option (pystr * object) :=
  match row_get df row (py "学号"), row_get df row score_col with
  | inr (Some id), inr (Some score) => Some (strip (str id), score)
  | _, _ => None
  end.

Definition sheet_entries (df : Table) (score_col : pystr) : list (pystr * object) :=
  omap (row_entry df score_col) (rows df).

(** The last score that a list of entries holds for a student. *)
Definition last_entry (student_id : pystr) (entries : list (pystr * object))
    : option object :=
  snd <$> last (filter (fun e => e.1 = student_id) entries).

(** The entries that one SA or LA file has to record: those of its sheet
    under the score column, when the file can be read and has one. *)
Definition keyed_file_entries (f : xfile) : list (pystr * object) :=
  match read_excel (read_table f) (engines_for (fpath f)) with
  | inr df =>
      match find_score_col (columns df) with
      | Some score_col => sheet_entries df score_col
      | None => []
      end
  | inl _ => []
  end.

(** The entries that one TL file has to record. *)
Definition tl_file_entries (f : xfile) : list (pystr * object) :=
  match read_excel (read_table f) (engines_for (fpath f)) with
  | inr df =>
      if bool_decide (py "讨论/" ∈ columns df)
      then sheet_entries df (py "讨论/") else []
  | inl _ => []
  end.

(** The score held for a student under a category key. *)
Definition score_at (scores : gmap pystr (gmap pystr object))
    (student_id key : pystr) : option object :=
  sc ← scores !! student_id; sc !! key.

(** The columns as the specification words them, from one keyed mapping. *)
Definition spec_columns (keys : gset pystr) : list pystr :=
  fixed_columns ++ sorted (elements keys) ++ [py "TL讨论"].


(** A row loop that reads the student number and one score column, and
    writes with [write]: the shape shared by the keyed loops and the TL
    loop. *)
Definition scored_row {S} (df : Table) (score_col : pystr)
    (write : pystr -> object -> S -> S) (row : list (option object)) : Proc S unit :=
  id_cell <~ lift (row_get df row (py "学号"));
  match id_cell with
  | Some id =>
      score_cell <~ lift (row_get df row score_col);
      match score_cell with
      | Some score => modify (write (strip (str id)) score)
      | None => ret tt
      end
  | None => ret tt
  end.

(** The category keys that one file adds, whatever was collected before. *)
Definition file_keys (f : xfile) : gset pystr :=
  if keyed_file_entries f is [] then ∅ else {[category_key (fpath f)]}.
End Notions.

(** ** Concrete sheets and files

    The scenarios of the specification and a few files around them, in the
    concrete environment. *)

Section Scenarios.
#[local] Existing Instance ascii_python.

(** The roster of the specification's scenario, in a file [CL1.xls]. *)
Definition scenario_roster : RawGrid :=
  [ [py "序号"; py "学号"; py "姓名"; py "班级"; py "性别"];
    [py "1"; py "20230001A"; py "Alice"; py "ClassX"; py "F"];
    [py "2"; py "abc"; py "Bob"; py "ClassY"; py "M"] ].

Definition scenario_mapping : gmap field nat :=
  <[F_seq := 0]> (<[F_id := 1]> (<[F_name := 2]> (<[F_class := 3]> (<[F_gender := 4]> ∅)))).

(** The record of the scenario's first data row. *)
Definition scenario_record : StudentRecord :=
  {| student_id := py "20230001A"; student_name := py "Alice";
     original_seq := py "1"; class_info := py "ClassX";
     gender_info := py "F"; source_file := py "CL1.xls" |}.

(** A file that holds a labelled sheet, a file that holds a roster, and a
    file that no engine can read. *)
Definition sheet_file (path : pystr) (df : Table) : xfile :=
  {| fpath := path;
     read_raw := fun _ => inl (ReadError 2);
     read_table := fun _ => inr df |}.

Definition roster_file (path : pystr) (df : RawGrid) : xfile :=
  {| fpath := path;
     read_raw := fun _ => inr df;
     read_table := fun _ => inl (ReadError 2) |}.

Definition broken_file (path : pystr) : xfile :=
  {| fpath := path;
     read_raw := fun _ => inl (ReadError 1);
     read_table := fun _ => inl (ReadError 1) |}.

(** The score sheet of the specification's scenario, with a score [v]. *)
Definition scenario_scores (v : Z) : Table :=
  {| columns := [py "学号"; py "SA1得分"];
     rows := [ [Some (Str (py "20230001A")); Some (Int v)] ] |}.

(** Two sheets with two 得分 columns, the same under the first of them. *)
Definition two_score_columns (v : Z) : Table :=
  {| columns := [py "学号"; py "SA1得分"; py "补考得分"];
     rows := [ [Some (Str (py "20230001A")); Some (Int 85); Some (Int v)] ] |}.

(** A roster without a header row of two keywords: the row scan is used. *)
Definition scanned_roster : RawGrid :=
  [ [py "学号"; py "Sex"; py "Pupil"];
    [py "20230001A"; py "男"; py "Alice"] ].
End Scenarios.

(** ** Notions used by the further properties *)

Section FurtherNotions.
Context `{Python}.

(** The student-number keyword test of both header searches, on a cell as
    it is in the sheet. *)
Definition id_keyword (cell_value : pystr) : bool :=
  let cell_str := lower (strip cell_value) in
  contains (py "学号") cell_str || contains (py "student") cell_str
  || contains (py "id") cell_str.

(** An engine that cannot read the file. *)
Definition engine_fails {A} (read : engine -> exn + A) (engine : engine) : Prop :=
  ∃ e, read engine = inl e.

(** The shape of what the row scan infers: each field is empty or passed
    its own test. *)
Definition name_shape (s : pystr) : Prop :=
  s = [] ∨ (2 <= length s <= 15
            ∧ any_in name_excluded (lower s) = false
            ∧ str_isdigit (remove_all (py ".") s) = false).

Definition seq_shape (s : pystr) : Prop :=
  s = [] ∨ (str_isdigit s = true ∧ length s <= 3).

Definition class_shape (s : pystr) : Prop :=
  s = [] ∨ (any_in class_keywords s = true ∧ 3 <= length s <= 20).

(** No field of a record is the text of a missing cell. *)
Definition no_nan (r : StudentRecord) : Prop :=
  student_id r ≠ py "nan" ∧ student_name r ≠ py "nan"
  ∧ original_seq r ≠ py "nan" ∧ class_info r ≠ py "nan"
  ∧ gender_info r ≠ py "nan".
End FurtherNotions.

(** * Properties *)

(** ** Strings *)

Lemma startswith_single c x s : startswith [c] (x :: s) = (c =? x)%N.
Proof. simpl. by rewrite andb_true_r. Qed.

Lemma remove_all_single c s :
  remove_all [c] s = filter (fun x => x ≠ c) s.
Proof.
  unfold remove_all. induction s as [|x s IH]; [done|].
  cbn [remove_from]. rewrite startswith_single. cbn [length Nat.sub].
  destruct (N.eqb_spec c x) as [->|Hne].
  - rewrite filter_cons_False by (intros Hx; by apply Hx). exact IH.
  - rewrite filter_cons_True by congruence. by rewrite IH.
Qed.

Lemma str_leb_refl a : str_leb a a = true.
Proof.
  induction a as [|x a IH]; [done|]. simpl.
  by rewrite N.eqb_refl, IH, orb_true_r.
Qed.

Lemma str_leb_cons x a y b :
  str_leb (x :: a) (y :: b) = true <-> (x < y)%N ∨ (x = y ∧ str_leb a b = true).
Proof.
  simpl. rewrite orb_true_iff, andb_true_iff, N.ltb_lt, N.eqb_eq. tauto.
Qed.

Lemma str_le_total : Total str_le.
Proof.
  intros a. induction a as [|x a IH]; intros b.
  - by left.
  - destruct b as [|y b]; [by right|].
    unfold str_le. rewrite !str_leb_cons.
    destruct (N.lt_trichotomy x y) as [?|[->|?]]; [tauto| |tauto].
    destruct (IH b); unfold str_le in *; tauto.
Qed.

Lemma str_le_trans : Transitive str_le.
Proof.
  intros a. induction a as [|x a IH]; intros b c; [done|].
  destruct b as [|y b]; [done|]. destruct c as [|z c]; [done|].
  unfold str_le. rewrite !str_leb_cons.
  intros [?|[-> Hab]] [?|[-> Hbc]]; [left; lia|left; lia|left; lia|].
  right. split; [done|]. by apply (IH b c).
Qed.

Lemma str_le_antisymm : AntiSymm (=) str_le.
Proof.
  intros a. induction a as [|x a IH]; intros b.
  - by destruct b.
  - destruct b as [|y b]; [done|].
    unfold str_le. rewrite !str_leb_cons.
    intros [?|[-> Hab]] [?|[? Hba]]; try lia.
    f_equal. by apply IH.
Qed.

#[global] Existing Instances str_le_total str_le_trans str_le_antisymm.

(** ** The header search *)

Section HeaderSearch.
Context `{Python}.

Lemma cell_field_cons_0 c row : cell_field (c :: row) 0 = header_field (lower (strip c)).
Proof. done. Qed.

Lemma cell_field_cons_S c row j : cell_field (c :: row) (S j) = cell_field row j.
Proof. done. Qed.

Lemma matching_cells_cons c row :
  matching_cells (c :: row) =
    (match header_field (lower (strip c)) with Some _ => 1 | None => 0 end)
    + matching_cells row.
Proof.
  unfold matching_cells. rewrite filter_cons.
  destruct (header_field (lower (strip c))) as [f|]; case_decide as Hd; simpl;
    try done.
  exfalso. apply Hd. by eexists.
Qed.

(** One row: the counter grows by the number of matching cells, and the
    mapping gives each field its rightmost matching column, keeping what it
    held for the fields that no cell matches. *)
Lemma scan_header_cells_spec row : ∀ j n m,
  (scan_header_cells j row n m).1 = n + matching_cells row
  ∧ ∀ f k, (scan_header_cells j row n m).2 !! f = Some k <->
      (∃ i, k = j + i ∧ cell_field row i = Some f
            ∧ ∀ i', i < i' -> cell_field row i' ≠ Some f)
      ∨ (m !! f = Some k ∧ ∀ i, cell_field row i ≠ Some f).
Proof.
  induction row as [|c row IH]; intros j n m.
  - split; [simpl; unfold matching_cells; simpl; lia|].
    intros f k. simpl. split.
    + intros Hm. right. split; [done|]. intros i. by destruct i.
    + intros [(i & _ & Hi & _)|[Hm _]]; [by destruct i|done].
  - cbn [scan_header_cells]. rewrite matching_cells_cons.
    destruct (header_field (lower (strip c))) as [g|] eqn:Hg.
    + destruct (IH (S j) (S n) (<[g:=j]> m)) as [IH1 IH2].
      split; [rewrite IH1; lia|]. intros f k. rewrite IH2. split.
      * intros [(i & -> & Hi & Hlast)|[Hm Hno]].
        -- left. exists (S i). split; [lia|]. split; [done|].
           intros [|i'] Hlt; [lia|]. rewrite cell_field_cons_S. apply Hlast. lia.
        -- destruct (decide (g = f)) as [->|Hne].
           ++ rewrite lookup_insert_eq in Hm. injection Hm as <-.
              left. exists 0. split; [lia|]. split; [by rewrite cell_field_cons_0|].
              intros [|i'] Hlt; [lia|]. rewrite cell_field_cons_S. apply Hno.
           ++ rewrite lookup_insert_ne in Hm by done.
              right. split; [done|]. intros [|i].
              ** rewrite cell_field_cons_0, Hg. congruence.
              ** rewrite cell_field_cons_S. apply Hno.
      * intros [(i & -> & Hi & Hlast)|[Hm Hno]].
        -- destruct i as [|i].
           ++ rewrite cell_field_cons_0, Hg in Hi. injection Hi as ->.
              right. split; [rewrite lookup_insert_eq; f_equal; lia|].
              intros i. specialize (Hlast (S i)). rewrite cell_field_cons_S in Hlast.
              apply Hlast. lia.
           ++ left. exists i. split; [lia|]. split; [done|].
              intros i' Hlt. specialize (Hlast (S i')).
              rewrite cell_field_cons_S in Hlast. apply Hlast. lia.
        -- right. split.
           ++ rewrite lookup_insert_ne; [done|]. intros ->.
              apply (Hno 0). by rewrite cell_field_cons_0.
           ++ intros i. apply (Hno (S i)).
    + destruct (IH (S j) n m) as [IH1 IH2].
      split; [rewrite IH1; lia|]. intros f k. rewrite IH2. split.
      * intros [(i & -> & Hi & Hlast)|[Hm Hno]].
        -- left. exists (S i). split; [lia|]. split; [done|].
           intros [|i'] Hlt; [lia|]. rewrite cell_field_cons_S. apply Hlast. lia.
        -- right. split; [done|]. intros [|i].
           ++ rewrite cell_field_cons_0, Hg. congruence.
           ++ rewrite cell_field_cons_S. apply Hno.
      * intros [(i & -> & Hi & Hlast)|[Hm Hno]].
        -- destruct i as [|i]; [rewrite cell_field_cons_0, Hg in Hi; congruence|].
           left. exists i. split; [lia|]. split; [done|].
           intros i' Hlt. specialize (Hlast (S i')).
           rewrite cell_field_cons_S in Hlast. apply Hlast. lia.
        -- right. split; [done|]. intros i. apply (Hno (S i)).
Qed.

Lemma scan_header_row_count row : (scan_header_row row).1 = matching_cells row.
Proof. unfold scan_header_row. by rewrite (proj1 (scan_header_cells_spec row 0 0 ∅)). Qed.

Lemma scan_header_row_mapping row f j :
  (scan_header_row row).2 !! f = Some j <->
    cell_field row j = Some f ∧ ∀ j', j < j' -> cell_field row j' ≠ Some f.
Proof.
  unfold scan_header_row.
  rewrite (proj2 (scan_header_cells_spec row 0 0 ∅)). split.
  - intros [(i & -> & Hi & Hlast)|[Hm _]]; [done|by rewrite lookup_empty in Hm].
  - intros [Hj Hlast]. left. by exists j.
Qed.

Lemma find_header_from_spec rows : ∀ i,
  match find_header_from i rows with
  | Some (i', m) =>
      ∃ k row, i' = i + k ∧ rows !! k = Some row ∧ 2 <= matching_cells row
               ∧ m = (scan_header_row row).2
               ∧ ∀ k' row', k' < k -> rows !! k' = Some row' -> matching_cells row' < 2
  | None => ∀ k row, rows !! k = Some row -> matching_cells row < 2
  end.
Proof.
  induction rows as [|r rows IH]; intros i; [by intros k row|].
  cbn [find_header_from].
  pose proof (scan_header_row_count r) as Hcount.
  destruct (scan_header_row r) as [n m] eqn:Hscan. simpl in Hcount. subst n.
  destruct (Nat.leb_spec 2 (matching_cells r)) as [Hge|Hlt].
  - exists 0, r. split; [lia|]. do 2 (split; [done|]). split; [by rewrite Hscan|].
    intros k' row' Hk'. lia.
  - specialize (IH (S i)). destruct (find_header_from (S i) rows) as [[i' m']|].
    + destruct IH as (k & row & -> & Hrow & Hge & -> & Hmin).
      exists (S k), row. split; [lia|]. do 3 (split; [done|]).
      intros [|k'] row' Hk' Hrow'.
      * by injection Hrow' as <-.
      * apply (Hmin k'); [lia|done].
    + intros [|k] row Hrow; [by injection Hrow as <-|]. by apply (IH k).
Qed.

(** C3, as the code has it. A row is taken as the header row when at
    least two of its cells hold a header keyword (a cell is given to the
    first of 学号, 姓名, 班级, 性别, 序号 whose keywords it holds). The search
    returns the first such row among the first 20 rows, with a mapping that
    holds, for exactly the fields matched in that row, the rightmost
    matching column; when no row among the first 20 has two matching
    cells, nothing is found. *)
Theorem find_header_spec (df : RawGrid) :
  match find_header df with
  | Some (header_row_idx, col_mapping) =>
      header_row_idx < 20
      ∧ ∃ row_data, df !! header_row_idx = Some row_data
          ∧ 2 <= matching_cells row_data
          ∧ (∀ i row, i < header_row_idx -> df !! i = Some row -> matching_cells row < 2)
          ∧ (∀ f j, col_mapping !! f = Some j <->
               cell_field row_data j = Some f
               ∧ ∀ j', j < j' -> cell_field row_data j' ≠ Some f)
  | None => ∀ i row, i < 20 -> df !! i = Some row -> matching_cells row < 2
  end.
Proof.
  unfold find_header.
  pose proof (find_header_from_spec (take (20 `min` length df) df) 0) as Hspec.
  destruct (find_header_from 0 (take (20 `min` length df) df)) as [[i m]|].
  - destruct Hspec as (k & row & -> & Hrow & Hge & -> & Hmin).
    apply lookup_take_Some in Hrow as [Hrow Hk]. simpl.
    split; [lia|]. exists row. do 2 (split; [done|]). split.
    + intros i r Hi Hr. apply (Hmin i r Hi).
      apply lookup_take_Some. split; [done|lia].
    + intros f j. apply scan_header_row_mapping.
  - intros i row Hi Hrow. apply (Hspec i row).
    apply lookup_take_Some. split; [done|].
    apply lookup_lt_Some in Hrow. lia.
Qed.
End HeaderSearch.

Section HeaderSearchChecks.
#[local] Existing Instance ascii_python.

(** C3 as the specification words it fails: in the sheet below the first
    row has two matching cells but one field only (both cells are given to
    学号), and the search still takes it as the header row, where the first
    row with two distinct fields is the second one. *)
Lemma find_header_counts_cells_not_fields :
  let df := [ [py "学号"; py "Student ID"]; [py "学号"; py "姓名"] ] in
  fst <$> find_header df = Some 0
  ∧ distinct_fields [py "学号"; py "Student ID"] = 1
  ∧ spec_header_row df = Some 1
  ∧ fst <$> find_header df ≠ spec_header_row df.
Proof. vm_compute. repeat split; congruence. Qed.
End HeaderSearchChecks.

(** ** The student number test and the extraction by column *)

Section MappedPath.
Context `{Python}.

Lemma py_dot : py "." = [46%N].
Proof. reflexivity. Qed.

Lemma py_dash : py "-" = [45%N].
Proof. reflexivity. Qed.

Lemma truthy_true (s : pystr) : truthy s = true <-> s ≠ [].
Proof. by destruct s. Qed.

Lemma str_isdigit_false (t : pystr) :
  str_isdigit t = false <-> t = [] ∨ ∃ c, c ∈ t ∧ isdigit c = false.
Proof.
  unfold str_isdigit. rewrite andb_false_iff. split.
  - intros [Ht|Hf].
    + left. by destruct t.
    + right. apply not_true_iff_false in Hf.
      rewrite forallb_forall in Hf.
      induction t as [|c t IH]; [exfalso; apply Hf; by intros ? []|].
      destruct (isdigit c) eqn:Hc.
      * destruct IH as (c' & Hc' & Hd).
        -- intros Hall. apply Hf. intros x [<-|Hx]; [done|by apply Hall].
        -- exists c'. split; [by right|done].
      * exists c. split; [by left|done].
  - intros [->|(c & Hc & Hd)]; [by left|]. right.
    apply not_true_iff_false. rewrite forallb_forall. intros Hall.
    apply list_elem_of_In in Hc. specialize (Hall c Hc). congruence.
Qed.

Lemma any_digit_true (s : pystr) :
  any_digit s = true <-> ∃ c, c ∈ s ∧ isdigit c = true.
Proof.
  unfold any_digit. rewrite existsb_exists.
  split; intros (c & Hc & Hd); exists c; by rewrite ?list_elem_of_In in *.
Qed.

Lemma remove_dot_dash (s : pystr) :
  remove_all (py "-") (remove_all (py ".") s)
  = filter (fun c => c ≠ 45%N) (filter (fun c => c ≠ 46%N) s).
Proof. by rewrite py_dot, py_dash, !remove_all_single. Qed.

Lemma elem_of_remove_dot_dash c (s : pystr) :
  c ∈ remove_all (py "-") (remove_all (py ".") s)
  <-> c ∈ filter (fun c => c ≠ 46%N ∧ c ≠ 45%N) s.
Proof. rewrite remove_dot_dash, !list_elem_of_filter. tauto. Qed.

(** The test of the code and the wording of the specification agree, since
    neither [.] nor [-] is a digit. *)
Lemma valid_student_id_spec (s : pystr) :
  isdigit 46%N = false -> isdigit 45%N = false ->
  valid_student_id s = true <-> spec_valid_id s.
Proof.
  intros Hdot Hdash. unfold valid_student_id, spec_valid_id, str_eqb.
  rewrite !andb_true_iff, !negb_true_iff, !bool_decide_eq_false,
    truthy_true, Nat.leb_le, any_digit_true, str_isdigit_false.
  split.
  - intros (((((Hne & Hnan) & _) & Hlen) & Hdig) & Hnon).
    do 4 (split; [done|]).
    destruct Hnon as [Hempty|(c & Hc & Hd)].
    + exfalso. destruct Hdig as (d & Hd & Hdd).
      assert (d ∈ remove_all (py "-") (remove_all (py ".") s)) as Hin.
      { apply elem_of_remove_dot_dash, list_elem_of_filter.
        split; [|done]. split; intros ->; congruence. }
      rewrite Hempty in Hin. by apply elem_of_nil in Hin.
    + exists c. by rewrite <- elem_of_remove_dot_dash.
  - intros (Hne & Hnan & Hlen & Hdig & (c & Hc & Hd)).
    repeat split; try done.
    right. exists c. by rewrite elem_of_remove_dot_dash.
Qed.

Lemma search_window_lookup header_row (df : RawGrid) k :
  search_window header_row df !! k =
    if decide (k < 30) then df !! (header_row + 1 + k) else None.
Proof.
  unfold search_window. case_decide as Hk.
  - destruct (df !! (header_row + 1 + k)) as [row|] eqn:Hrow.
    + apply lookup_take_Some. split; [by rewrite lookup_drop|].
      apply lookup_lt_Some in Hrow. lia.
    + apply lookup_ge_None. rewrite length_take, length_drop.
      apply lookup_ge_None in Hrow. lia.
  - apply lookup_ge_None. rewrite length_take, length_drop. lia.
Qed.

Lemma foldl_append {A B} (f : A -> list B) (l : list A) (acc : list B) :
  foldl (fun acc x => acc ++ f x) acc l = acc ++ concat (f <$> l).
Proof.
  revert acc. induction l as [|x l IH]; intros acc; simpl.
  - by rewrite app_nil_r.
  - by rewrite IH, app_assoc.
Qed.

End MappedPath.

Section MappedPathChecks.
#[local] Existing Instance ascii_python.

(** The header row of the scenario is its first row, with all five columns. *)
Lemma scenario_header : find_header scenario_roster = Some (0, scenario_mapping).
Proof. vm_compute. reflexivity. Qed.


(** Only the first data row of the scenario yields a record. *)
Example scenario_students :
  student_id <$> extract_students (py "CL1.xls") scenario_roster []
  = [py "20230001A"].
Proof. vm_compute. reflexivity. Qed.
End MappedPathChecks.

(** ** The row scan *)

Section FallbackPath.
Context `{Python}.




Lemma elem_of_foldl_append {A B} (f : A -> list B) (l : list A) (y : B) :
  y ∈ foldl (fun acc x => acc ++ f x) [] l <-> ∃ x, x ∈ l ∧ y ∈ f x.
Proof.
  rewrite foldl_append, app_nil_l.
  induction l as [|x l IH]; simpl.
  - split; [by intros ?%elem_of_nil|by intros (x & ?%elem_of_nil & _)].
  - rewrite elem_of_app, IH. split.
    + intros [Hy|(x' & Hx' & Hy)]; [exists x|exists x'];
        (split; [|done]); [by left|by right].
    + intros (x' & [->|Hx']%elem_of_cons & Hy); [by left|right; eauto].
Qed.

End FallbackPath.

Section FallbackPathChecks.
#[local] Existing Instance ascii_python.



(** C5 fails on the code: a gender cell that comes before the name cell is
    lost. In the roster below no header row is found, the row scan is used,
    and the data row has 男 as the first of its other cells that passes the
    gender test; the record gets the name and no gender. With the two cells
    swapped the same row gets 男. A class cell before the name cell is lost
    in the same way. *)
Lemma fallback_loses_gender_before_name :
  let row_data := [py "20230001A"; py "男"; py "Alice"] in
  find_header scanned_roster = None
  ∧ find_id_cell scanned_roster = Some (0, 0)
  ∧ search_window 0 scanned_roster = [row_data]
  ∧ first_other_cell is_gender 0 0 row_data = py "男"
  ∧ gender_info <$> extract_students (py "CL1.xls") scanned_roster [] = [[]]
  ∧ student_name <$> extract_students (py "CL1.xls") scanned_roster [] = [py "Alice"]
  ∧ gender_info <$> fallback_row 0 (py "CL1.xls")
                      [py "20230001A"; py "Alice"; py "男"] = [py "男"]
  ∧ class_info <$> fallback_row 0 (py "CL1.xls")
                     [py "20230001A"; py "工商管理1班"; py "Alice"] = [[]]
  ∧ class_info <$> fallback_row 0 (py "CL1.xls")
                     [py "20230001A"; py "Alice"; py "工商管理1班"] = [py "工商管理1班"].
Proof. vm_compute. repeat split. Qed.
End FallbackPathChecks.

(** ** Labelled sheets and the row loops *)

Section Rows.
Context `{Python}.

Lemma index_of_is_Some label labels : is_Some (index_of label labels) <-> label ∈ labels.
Proof.
  induction labels as [|l labels IH]; simpl.
  - split; [by intros [? ?]|by intros ?%elem_of_nil].
  - unfold str_eqb. case_bool_decide as Hl.
    + subst l. split; [intros _; apply list_elem_of_here|by eexists].
    + rewrite fmap_is_Some, IH, elem_of_cons. split; [by right|].
      by intros [->|?].
Qed.

Lemma index_of_None label labels : index_of label labels = None <-> label ∉ labels.
Proof. rewrite <- index_of_is_Some, eq_None_not_Some. tauto. Qed.

Lemma score_keyword_nonempty (col : pystr) : contains (py "得分") col = true -> truthy col = true.
Proof. by destruct col. Qed.

(** The score column is the leftmost label that holds 得分. *)
Lemma find_score_col_Some labels col :
  find_score_col labels = Some col <->
    ∃ before after, labels = before ++ col :: after
      ∧ contains (py "得分") col = true
      ∧ Forall (fun l => contains (py "得分") l = false) before.
Proof.
  induction labels as [|l labels IH]; simpl.
  - split; [done|]. intros (before & after & Heq & _). by destruct before.
  - destruct (contains (py "得分") l) eqn:Hl.
    + split.
      * intros [= <-]. by exists [], labels.
      * intros ([|b before] & after & Heq & Hcol & Hbefore).
        -- by injection Heq as ->.
        -- injection Heq as -> _. apply Forall_cons in Hbefore as [Hb _]. congruence.
    + rewrite IH. split.
      * intros (before & after & -> & Hcol & Hbefore).
        exists (l :: before), after. by repeat constructor.
      * intros ([|b before] & after & Heq & Hcol & Hbefore).
        -- injection Heq as -> _. congruence.
        -- injection Heq as -> ->. apply Forall_cons in Hbefore as [_ Hbefore].
           by exists before, after.
Qed.

Lemma find_score_col_elem labels col : find_score_col labels = Some col -> col ∈ labels.
Proof.
  intros (before & after & -> & _)%find_score_col_Some.
  apply elem_of_app. right. apply list_elem_of_here.
Qed.

Lemma keyed_row_scored df score_col key :
  keyed_row df score_col key = scored_row df score_col (fun id score => record_score id key score).
Proof. done. Qed.

Lemma tl_row_scored df :
  tl_row df = scored_row df (py "讨论/") (fun id score => <[id := score]>).
Proof. done. Qed.

(** With both columns in the sheet the loop never raises, and writes the
    entries of the rows in order. *)
Lemma for_each_scored_ok {S} df score_col (write : pystr -> object -> S -> S) :
  py "学号" ∈ columns df -> score_col ∈ columns df ->
  ∀ rs s,
    for_each (scored_row df score_col write) rs s
    = (foldl (fun m e => write e.1 e.2 m) s (omap (row_entry df score_col) rs), inr tt).
Proof.
  intros [i Hi]%index_of_is_Some [j Hj]%index_of_is_Some rs.
  induction rs as [|row rs IH]; intros s; [done|].
  cbn [for_each omap list_omap]. unfold bind at 1.
  unfold scored_row at 1, row_entry at 1, row_get, bind, lift. rewrite Hi, Hj.
  destruct (mjoin (row !! i)) as [id|]; simpl; [|by rewrite IH].
  destruct (mjoin (row !! j)) as [score|]; simpl; by rewrite IH.
Qed.

(** Without a student number column the first row raises, before anything
    is written. *)
Lemma for_each_scored_no_id {S} df score_col (write : pystr -> object -> S -> S) :
  py "学号" ∉ columns df ->
  ∀ rs s,
    for_each (scored_row df score_col write) rs s
    = (s, match rs with [] => inr tt | _ :: _ => inl (KeyError (py "学号")) end).
Proof.
  intros Hi%index_of_None [|row rs] s; [done|].
  cbn [for_each]. unfold bind at 1.
  unfold scored_row, row_get, bind, lift. by rewrite Hi.
Qed.

(** No entry is read from a sheet without a student number column. *)
Lemma sheet_entries_no_id df score_col :
  py "学号" ∉ columns df -> sheet_entries df score_col = [].
Proof.
  intros Hi%index_of_None. unfold sheet_entries.
  induction (rows df) as [|row rs IH]; [done|].
  cbn [omap list_omap]. unfold row_entry at 1, row_get. by rewrite Hi.
Qed.

(** One keyed file writes the entries of its sheet under its category key,
    in row order. *)
Lemma process_keyed_file_state f s :
  (process_keyed_file f s).1
  = foldl (fun m e => record_score e.1 (category_key (fpath f)) e.2 m) s
          (keyed_file_entries f).
Proof.
  unfold process_keyed_file, keyed_file_entries, bind, lift.
  destruct (read_excel (read_table f) (engines_for (fpath f))) as [e|df]; [done|].
  destruct (find_score_col (columns df)) as [score_col|] eqn:Hcol; [|done].
  pose proof (find_score_col_elem _ _ Hcol) as Hin.
  apply find_score_col_Some in Hcol as (_ & _ & _ & Hkw & _).
  rewrite (score_keyword_nonempty _ Hkw), keyed_row_scored.
  destruct (decide (py "学号" ∈ columns df)) as [Hid|Hid].
  - by rewrite (for_each_scored_ok _ _ _ Hid Hin).
  - by rewrite (for_each_scored_no_id _ _ _ Hid), (sheet_entries_no_id _ _ Hid).
Qed.

(** It raises only before anything is written. *)
Lemma process_keyed_file_raise f s e :
  (process_keyed_file f s).2 = inl e -> (process_keyed_file f s).1 = s.
Proof.
  unfold process_keyed_file, bind, lift.
  destruct (read_excel (read_table f) (engines_for (fpath f))) as [e'|df]; [done|].
  destruct (find_score_col (columns df)) as [score_col|] eqn:Hcol; [|done].
  pose proof (find_score_col_elem _ _ Hcol) as Hin.
  apply find_score_col_Some in Hcol as (_ & _ & _ & Hkw & _).
  rewrite (score_keyword_nonempty _ Hkw), keyed_row_scored.
  destruct (decide (py "学号" ∈ columns df)) as [Hid|Hid].
  - by rewrite (for_each_scored_ok _ _ _ Hid Hin).
  - by rewrite (for_each_scored_no_id _ _ _ Hid).
Qed.

(** The same two facts for one TL file. *)
Lemma process_tl_file_state f s :
  (process_tl_file f s).1
  = foldl (fun m e => <[e.1 := e.2]> m) s (tl_file_entries f).
Proof.
  unfold process_tl_file, tl_file_entries, bind, lift.
  destruct (read_excel (read_table f) (engines_for (fpath f))) as [e|df]; [done|].
  case_bool_decide as Hin; [|done]. rewrite tl_row_scored.
  destruct (decide (py "学号" ∈ columns df)) as [Hid|Hid].
  - by rewrite (for_each_scored_ok _ _ _ Hid Hin).
  - by rewrite (for_each_scored_no_id _ _ _ Hid), (sheet_entries_no_id _ _ Hid).
Qed.

Lemma process_tl_file_raise f s e :
  (process_tl_file f s).2 = inl e -> (process_tl_file f s).1 = s.
Proof.
  unfold process_tl_file, bind, lift.
  destruct (read_excel (read_table f) (engines_for (fpath f))) as [e'|df]; [done|].
  case_bool_decide as Hin; [|done]. rewrite tl_row_scored.
  destruct (decide (py "学号" ∈ columns df)) as [Hid|Hid].
  - by rewrite (for_each_scored_ok _ _ _ Hid Hin).
  - by rewrite (for_each_scored_no_id _ _ _ Hid).
Qed.

(** A roster file raises only when it cannot be read. *)
Lemma process_cl_file_raise f s e :
  (process_cl_file f s).2 = inl e -> (process_cl_file f s).1 = s.
Proof.
  unfold process_cl_file, bind, lift.
  by destruct (read_excel (read_raw f) (engines_for (fpath f))).
Qed.
End Rows.

(** ** The score collectors *)

Section Collectors.
Context `{Python}.

Lemma try_file_data {S} p (body : Proc S unit) st : (try_file p body st).1 = (body st.1).1.
Proof. unfold try_file. by destruct (body st.1) as [s' [e|[]]]. Qed.

Lemma try_file_raise {S} p (body : Proc S unit) st e :
  (body st.1).2 = inl e -> (try_file p body st).2 = st.2 ++ [(path_name p, e)].
Proof. unfold try_file. destruct (body st.1) as [s' [e'|[]]]; simpl; congruence. Qed.

(** The console lines already printed do not change what a loop collects. *)
Lemma collect_from_log {S} (process : xfile -> Proc S unit) fs : ∀ (s : S) log,
  foldl (fun st f => try_file (fpath f) (process f) st) (s, log) fs
  = ((foldl (fun st f => try_file (fpath f) (process f) st) (s, []) fs).1,
     log ++ (foldl (fun st f => try_file (fpath f) (process f) st) (s, []) fs).2).
Proof.
  induction fs as [|f fs IH]; intros s log; simpl; [by rewrite app_nil_r|].
  unfold try_file at 2 4 6. simpl.
  destruct (process f s) as [s' [e|[]]]; simpl.
  - rewrite (IH s' (log ++ _)), (IH s' [_]). by rewrite <- app_assoc.
  - by rewrite (IH s' log).
Qed.

Lemma last_entry_snoc student_id entries (e : pystr * object) :
  last_entry student_id (entries ++ [e])
  = if decide (e.1 = student_id) then Some e.2 else last_entry student_id entries.
Proof.
  unfold last_entry. rewrite filter_app. case_decide as He.
  - rewrite filter_cons_True by done. by rewrite filter_nil, last_snoc.
  - rewrite filter_cons_False by done. by rewrite filter_nil, app_nil_r.
Qed.

(** Writes keyed by student number: the last entry of a student wins. *)
Lemma lookup_foldl_insert entries : ∀ (s : gmap pystr object) student_id,
  foldl (fun m e => <[e.1 := e.2]> m) s entries !! student_id
  = match last_entry student_id entries with
    | Some score => Some score
    | None => s !! student_id
    end.
Proof.
  induction entries as [|e entries IH] using rev_ind; intros s student_id; [done|].
  rewrite foldl_snoc, last_entry_snoc. case_decide as He.
  - subst. by rewrite lookup_insert_eq.
  - by rewrite lookup_insert_ne, IH.
Qed.

Lemma score_at_record_score scores id key score student_id key' :
  score_at (record_score id key score scores) student_id key'
  = if decide (id = student_id ∧ key = key') then Some score
    else score_at scores student_id key'.
Proof.
  unfold score_at, record_score.
  destruct (decide (id = student_id)) as [->|Hid].
  - rewrite lookup_insert_eq. simpl.
    destruct (decide (key = key')) as [->|Hkey].
    + rewrite lookup_insert_eq. by rewrite decide_True.
    + rewrite lookup_insert_ne by done. rewrite decide_False by tauto.
      by destruct (scores !! student_id).
  - rewrite lookup_insert_ne by done. by rewrite decide_False by tauto.
Qed.

(** Writes keyed by student number and category key: under the key written,
    the last entry of a student wins; under any other key nothing changes. *)
Lemma score_at_foldl_record key entries :
  ∀ (scores : gmap pystr (gmap pystr object)) student_id key',
  score_at (foldl (fun m e => record_score e.1 key e.2 m) scores entries) student_id key'
  = if decide (key = key') then
      match last_entry student_id entries with
      | Some score => Some score
      | None => score_at scores student_id key'
      end
    else score_at scores student_id key'.
Proof.
  induction entries as [|e entries IH] using rev_ind; intros scores student_id key'.
  { simpl. by case_decide. }
  rewrite foldl_snoc, score_at_record_score, last_entry_snoc, IH.
  destruct (decide (key = key')) as [->|Hkey].
  - destruct (decide (e.1 = student_id)) as [->|He].
    + by rewrite decide_True.
    + by rewrite decide_False by tauto.
  - by rewrite decide_False by tauto.
Qed.

(** C6, as the code has it. A TL file records, for every row of its sheet
    with a student number and a 讨论/ value, that value under the student
    number alone, so that the last such row of the last such file wins. An SA
    or LA file records its entries under its own category key, the last row
    of a student winning, and changes nothing under any other category key;
    two files with the same category key write over each other. *)
Theorem aggregated_overwrites_keyed_by_category
    (fs : list xfile) (f : xfile) (student_id key : pystr) :
  (collect_tl (fs ++ [f])).1 !! student_id
  = match last_entry student_id (tl_file_entries f) with
    | Some score => Some score
    | None => (collect_tl fs).1 !! student_id
    end
  ∧ score_at (collect_keyed (fs ++ [f])).1 student_id (category_key (fpath f))
    = match last_entry student_id (keyed_file_entries f) with
      | Some score => Some score
      | None => score_at (collect_keyed fs).1 student_id (category_key (fpath f))
      end
  ∧ (key ≠ category_key (fpath f) ->
     score_at (collect_keyed (fs ++ [f])).1 student_id key
     = score_at (collect_keyed fs).1 student_id key).
Proof.
  unfold collect_tl, collect_keyed. rewrite !foldl_snoc, !try_file_data.
  rewrite process_tl_file_state, process_keyed_file_state.
  split; [apply lookup_foldl_insert|].
  rewrite !score_at_foldl_record. split.
  - by rewrite decide_True.
  - intros Hkey. by rewrite decide_False.
Qed.

Lemma for_each_agree {S A} (body body' : A -> Proc S unit) (l l' : list A) :
  Forall2 (fun x x' => body x = body' x') l l' -> for_each body l = for_each body' l'.
Proof. induction 1 as [|x x' l l' Hx _ IH]; simpl; [done|]. by rewrite Hx, IH. Qed.

(** The position of a label that does not occur before. *)
Lemma index_of_app_fresh (label : pystr) (before after : list pystr) :
  label ∉ before -> index_of label (before ++ label :: after) = Some (length before).
Proof.
  induction before as [|l before IH]; intros Hfresh; simpl.
  - unfold str_eqb. by rewrite bool_decide_eq_true_2.
  - apply not_elem_of_cons in Hfresh as [Hne Hfresh].
    unfold str_eqb. rewrite bool_decide_eq_false_2 by done. by rewrite IH.
Qed.

(** The entries of a sheet, read off its rows: the student number under
    学号 and the score in column number [j], when [j] is where the score
    column is. *)
Lemma elem_of_sheet_entries df score_col j (e : pystr * object) :
  (∀ row, row_get df row score_col = inr (mjoin (row !! j))) ->
  e ∈ sheet_entries df score_col
  <-> ∃ row id score,
        row ∈ rows df
        ∧ row_get df row (py "学号") = inr (Some id)
        ∧ mjoin (row !! j) = Some score
        ∧ e = (strip (str id), score).
Proof.
  intros Hcol. unfold sheet_entries. rewrite list_elem_of_omap. split.
  - intros (row & Hrow & Hentry). unfold row_entry in Hentry. rewrite Hcol in Hentry.
    destruct (row_get df row (py "学号")) as [?|[id|]] eqn:Hid; [done| |done].
    destruct (mjoin (row !! j)) as [score|] eqn:Hscore; [|done].
    injection Hentry as <-. by exists row, id, score.
  - intros (row & id & score & Hrow & Hid & Hscore & ->).
    exists row. split; [done|]. unfold row_entry. by rewrite Hcol, Hid, Hscore.
Qed.

(** C10. The score column of an SA or LA sheet is the leftmost label that
    holds 得分, and what the file records is read under that column: every
    row with a student number and a cell in that column records that cell
    under the student number and the category key of the file, the last such
    row of a student winning, and nothing else is recorded. The other
    columns that hold 得分 are not read: a sheet with the same labels, the
    same student numbers and the same cells under that column, whatever its
    other cells, gives the same result. *)
Theorem keyed_file_reads_leftmost_score_column
    (f f' : xfile) (df df' : Table) (score_col : pystr)
    (scores : gmap pystr (gmap pystr object)) :
  read_excel (read_table f) (engines_for (fpath f)) = inr df ->
  find_score_col (columns df) = Some score_col ->
  (∃ before after, columns df = before ++ score_col :: after
     ∧ contains (py "得分") score_col = true
     ∧ Forall (fun l => contains (py "得分") l = false) before
     ∧ (∀ row, row_get df row score_col = inr (mjoin (row !! length before)))
     ∧ (∀ e, e ∈ sheet_entries df score_col
             <-> ∃ row id score,
                   row ∈ rows df
                   ∧ row_get df row (py "学号") = inr (Some id)
                   ∧ mjoin (row !! length before) = Some score
                   ∧ e = (strip (str id), score)))
  ∧ process_keyed_file f scores
    = for_each (keyed_row df score_col (category_key (fpath f))) (rows df) scores
  ∧ (process_keyed_file f scores).1
    = foldl (fun m e => record_score e.1 (category_key (fpath f)) e.2 m) scores
            (sheet_entries df score_col)
  ∧ (∀ student_id,
       score_at (process_keyed_file f scores).1 student_id (category_key (fpath f))
       = match last_entry student_id (sheet_entries df score_col) with
         | Some score => Some score
         | None => score_at scores student_id (category_key (fpath f))
         end)
  ∧ (∀ student_id key, key ≠ category_key (fpath f) ->
       score_at (process_keyed_file f scores).1 student_id key
       = score_at scores student_id key)
  ∧ (fpath f' = fpath f ->
     read_excel (read_table f') (engines_for (fpath f')) = inr df' ->
     columns df' = columns df ->
     Forall2 (fun row row' =>
                row_get df row (py "学号") = row_get df' row' (py "学号")
                ∧ row_get df row score_col = row_get df' row' score_col)
             (rows df) (rows df') ->
     process_keyed_file f' scores = process_keyed_file f scores).
Proof.
  intros Hread Hcol.
  assert ((process_keyed_file f scores).1
          = foldl (fun m e => record_score e.1 (category_key (fpath f)) e.2 m) scores
                  (sheet_entries df score_col)) as Hstate.
  { rewrite process_keyed_file_state. unfold keyed_file_entries.
    by rewrite Hread, Hcol. }
  split.
  { pose proof Hcol as (before & after & Hcols & Hkw & Hbefore)%find_score_col_Some.
    exists before, after. do 3 (split; [done|]).
    assert (∀ row, row_get df row score_col = inr (mjoin (row !! length before)))
      as Hget.
    { intros row. unfold row_get. rewrite Hcols, index_of_app_fresh; [done|].
      intros Hin. rewrite Forall_forall in Hbefore.
      specialize (Hbefore _ Hin). congruence. }
    split; [done|]. intros e. by apply elem_of_sheet_entries. }
  assert (truthy score_col = true) as Htruthy.
  { apply find_score_col_Some in Hcol as (_ & _ & _ & Hkw & _).
    by apply score_keyword_nonempty. }
  split.
  { unfold process_keyed_file, bind, lift. by rewrite Hread, Hcol, Htruthy. }
  split; [done|]. split.
  { intros student_id. rewrite Hstate, score_at_foldl_record. by rewrite decide_True. }
  split.
  { intros student_id key Hkey. rewrite Hstate, score_at_foldl_record.
    by rewrite decide_False. }
  intros Hpath Hread' Hcols Hrows.
  unfold process_keyed_file, bind, lift.
  rewrite Hread, Hread', Hcols, Hcol, Htruthy, Hpath.
  rewrite (for_each_agree (keyed_row df' score_col (category_key (fpath f)))
             (keyed_row df score_col (category_key (fpath f)))
             (rows df') (rows df)); [done|].
  eapply Forall2_flip, Forall2_impl; [exact Hrows|].
  intros row row' [Hid Hscore]. unfold keyed_row. by rewrite Hid, Hscore.
Qed.

(** One step of a loop over files, when the file raises and has written
    nothing. *)
Lemma failing_step {S} (process : xfile -> Proc S unit) (init : S)
    (before after : list xfile) (f : xfile) (e : exn) :
  let collect fs :=
    foldl (fun st f => try_file (fpath f) (process f) st) (init, []) fs in
  (process f (collect before).1).2 = inl e ->
  (process f (collect before).1).1 = (collect before).1 ->
  (collect (before ++ [f])).1 = (collect before).1
  ∧ (collect (before ++ [f])).2 = (collect before).2 ++ [(path_name (fpath f), e)]
  ∧ (collect (before ++ f :: after)).1 = (collect (before ++ after)).1.
Proof.
  intros collect Hraise Hsame. unfold collect.
  rewrite !foldl_snoc, !foldl_app. cbn [foldl]. fold (collect before).
  split; [by rewrite try_file_data|]. split; [by apply try_file_raise|].
  rewrite (surjective_pairing (try_file _ _ _)), (surjective_pairing (collect before)).
  rewrite collect_from_log, (collect_from_log _ after _ (collect before).2). simpl.
  rewrite try_file_data. cbn [fst]. by rewrite Hsame.
Qed.

(** C7. In each of the loops over the roster files, the SA and LA files and
    the TL files, a file whose processing raises leaves what was collected
    from the files before it as it was and adds nothing, its failure is put
    on the console, and the files after it are processed as if it were not
    there. *)
Theorem failing_file_is_skipped (before after : list xfile) (f : xfile) (e : exn) :
  ((process_cl_file f (collect_students before).1).2 = inl e ->
     (collect_students (before ++ [f])).1 = (collect_students before).1
     ∧ (collect_students (before ++ [f])).2
       = (collect_students before).2 ++ [(path_name (fpath f), e)]
     ∧ (collect_students (before ++ f :: after)).1
       = (collect_students (before ++ after)).1)
  ∧ ((process_keyed_file f (collect_keyed before).1).2 = inl e ->
     (collect_keyed (before ++ [f])).1 = (collect_keyed before).1
     ∧ (collect_keyed (before ++ [f])).2
       = (collect_keyed before).2 ++ [(path_name (fpath f), e)]
     ∧ (collect_keyed (before ++ f :: after)).1
       = (collect_keyed (before ++ after)).1)
  ∧ ((process_tl_file f (collect_tl before).1).2 = inl e ->
     (collect_tl (before ++ [f])).1 = (collect_tl before).1
     ∧ (collect_tl (before ++ [f])).2
       = (collect_tl before).2 ++ [(path_name (fpath f), e)]
     ∧ (collect_tl (before ++ f :: after)).1
       = (collect_tl (before ++ after)).1).
Proof.
  split; [|split]; intros Hraise.
  - apply failing_step; [done|]. by apply process_cl_file_raise in Hraise.
  - apply failing_step; [done|]. by apply process_keyed_file_raise in Hraise.
  - apply failing_step; [done|]. by apply process_tl_file_raise in Hraise.
Qed.
End Collectors.

Section CollectorChecks.
#[local] Existing Instance ascii_python.

(** The scenario: the entry [("20230001A", "SA1") -> 85]. *)
Example scenario_entry :
  score_at (collect_keyed [sheet_file (py "SA1.xls") (scenario_scores 85)]).1
    (py "20230001A") (py "SA1") = Some (Int 85).
Proof. vm_compute. reflexivity. Qed.

(** C6 as the specification words it fails: the two files below are both SA
    files and get the same category key [SA1], so the second writes over the
    score that the first recorded. *)
Lemma keyed_files_can_overwrite :
  let first := sheet_file (py "SA1.xls") (scenario_scores 85) in
  let second := sheet_file (py "SA1.xls.xls") (scenario_scores 60) in
  fpath <$> sa_files [first; second] = [py "SA1.xls"; py "SA1.xls.xls"]
  ∧ category_key (fpath first) = py "SA1"
  ∧ category_key (fpath second) = py "SA1"
  ∧ score_at (collect_keyed (sa_files [first])).1 (py "20230001A") (py "SA1")
    = Some (Int 85)
  ∧ score_at (collect_keyed (sa_files [first; second])).1 (py "20230001A") (py "SA1")
    = Some (Int 60).
Proof. vm_compute. repeat split. Qed.

(** C6 on two SA files with different category keys: the second leaves the
    score recorded under the key of the first as it was. *)
Lemma aggregated_overwrites_check :
  let first := sheet_file (py "SA1.xls") (scenario_scores 85) in
  let second := sheet_file (py "SA2.xls") (scenario_scores 60) in
  py "SA1" ≠ category_key (fpath second)
  ∧ score_at (collect_keyed ([first] ++ [second])).1 (py "20230001A") (py "SA1")
    = score_at (collect_keyed [first]).1 (py "20230001A") (py "SA1").
Proof.
  intros first second.
  assert (py "SA1" ≠ category_key (fpath second)) as Hkey by (vm_compute; congruence).
  split; [exact Hkey|].
  exact (proj2 (proj2 (aggregated_overwrites_keyed_by_category
                         [first] second (py "20230001A") (py "SA1"))) Hkey).
Defined.

(** C10 on two sheets that differ under their second 得分 column only:
    the score recorded is the one under the first 得分 column, [85], and the
    two sheets give the same result. *)
Lemma leftmost_score_column_check :
  let f := sheet_file (py "SA1.xls") (two_score_columns 40) in
  let f' := sheet_file (py "SA1.xls") (two_score_columns 99) in
  sheet_entries (two_score_columns 40) (py "SA1得分")
  = [(py "20230001A", Int 85)]
  ∧ (process_keyed_file f ∅).1
    = foldl (fun m e => record_score e.1 (category_key (fpath f)) e.2 m) ∅
            (sheet_entries (two_score_columns 40) (py "SA1得分"))
  ∧ score_at (process_keyed_file f ∅).1 (py "20230001A") (category_key (fpath f))
    = Some (Int 85)
  ∧ process_keyed_file f' ∅ = process_keyed_file f ∅.
Proof.
  intros f f'.
  destruct (keyed_file_reads_leftmost_score_column f f'
              (two_score_columns 40) (two_score_columns 99) (py "SA1得分") ∅)
    as (_ & _ & Hstate & Hlast & _ & Hsame); [reflexivity|reflexivity|].
  split; [reflexivity|]. split; [exact Hstate|].
  split; [by rewrite Hlast|].
  apply Hsame; [reflexivity|reflexivity|reflexivity|].
  repeat constructor.
Defined.

(** C7 on a file that no engine can read, between two readable files. *)
Lemma failing_file_check :
  let good := sheet_file (py "SA1.xls") (scenario_scores 85) in
  let bad := broken_file (py "CL_SA_TL_2.xls") in
  let e := ReadError 1 in
  ((collect_students ([good] ++ [bad])).1 = (collect_students [good]).1
   ∧ (collect_students ([good] ++ [bad])).2
     = (collect_students [good]).2 ++ [(path_name (fpath bad), e)]
   ∧ (collect_students ([good] ++ bad :: [good])).1
     = (collect_students ([good] ++ [good])).1)
  ∧ ((collect_keyed ([good] ++ [bad])).1 = (collect_keyed [good]).1
     ∧ (collect_keyed ([good] ++ [bad])).2
       = (collect_keyed [good]).2 ++ [(path_name (fpath bad), e)]
     ∧ (collect_keyed ([good] ++ bad :: [good])).1
       = (collect_keyed ([good] ++ [good])).1)
  ∧ ((collect_tl ([good] ++ [bad])).1 = (collect_tl [good]).1
     ∧ (collect_tl ([good] ++ [bad])).2
       = (collect_tl [good]).2 ++ [(path_name (fpath bad), e)]
     ∧ (collect_tl ([good] ++ bad :: [good])).1
       = (collect_tl ([good] ++ [good])).1).
Proof.
  intros good bad e.
  destruct (failing_file_is_skipped [good] [good] bad e) as (Hcl & Hkeyed & Htl).
  split; [apply Hcl; reflexivity|]. split; [apply Hkeyed; reflexivity|].
  apply Htl; reflexivity.
Defined.
End CollectorChecks.

(** ** The summary table *)

Section Merge.
Context `{Python}.

Lemma is_Some_score_at (scores : gmap pystr (gmap pystr object)) student_id key :
  is_Some (score_at scores student_id key)
  <-> ∃ sc, scores !! student_id = Some sc ∧ is_Some (sc !! key).
Proof.
  unfold score_at. destruct (scores !! student_id) as [sc|]; simpl.
  - split; [intros Hk; by exists sc|by intros (? & [= <-] & Hk)].
  - split; [by intros [? ?]|by intros (? & ? & _)].
Qed.

Lemma elem_of_category_keys (scores : gmap pystr (gmap pystr object)) key :
  key ∈ category_keys scores <-> ∃ student_id, is_Some (score_at scores student_id key).
Proof.
  unfold category_keys. rewrite elem_of_list_to_set, list_elem_of_bind. split.
  - intros (sc & Hkey & Hsc).
    apply list_elem_of_fmap in Hsc as ([student_id sc'] & -> & Hsc).
    apply elem_of_map_to_list in Hsc.
    apply list_elem_of_fmap in Hkey as ([key' score] & -> & Hkey).
    apply elem_of_map_to_list in Hkey.
    exists student_id. apply is_Some_score_at. exists sc'. split; [done|by eexists].
  - intros (student_id & (sc & Hsc & [score Hkey])%is_Some_score_at).
    exists sc. split.
    + apply list_elem_of_fmap. exists (key, score). split; [done|].
      by apply elem_of_map_to_list.
    + apply list_elem_of_fmap. exists (student_id, sc). split; [done|].
      by apply elem_of_map_to_list.
Qed.

Lemma category_keys_foldl_record (key : pystr) (entries : list (pystr * object))
    (scores : gmap pystr (gmap pystr object)) :
  category_keys (foldl (fun m e => record_score e.1 key e.2 m) scores entries)
  = category_keys scores ∪ (if entries is [] then ∅ else {[key]}).
Proof.
  apply set_eq. intros key'.
  rewrite elem_of_union, !elem_of_category_keys.
  setoid_rewrite score_at_foldl_record. split.
  - intros (student_id & Hsome). case_decide as Hkey; [|left; eauto]. subst key'.
    destruct entries as [|e entries]; [simpl in Hsome; left; eauto|].
    right. by apply elem_of_singleton.
  - intros [(student_id & Hsome)|Hkey].
    + exists student_id. case_decide; [|done]. by destruct (last_entry _ _).
    + destruct (last entries) as [e|] eqn:Hlast.
      * apply last_Some in Hlast as [entries' ->].
        assert (key' = key) as ->.
        { destruct entries'; simpl in Hkey; by apply elem_of_singleton in Hkey. }
        exists e.1. rewrite decide_True by done.
        by rewrite last_entry_snoc, decide_True.
      * apply last_None in Hlast as ->. by apply elem_of_empty in Hkey.
Qed.

Lemma category_keys_collect fs : ∀ (scores : gmap pystr (gmap pystr object)) log,
  category_keys
    (foldl (fun st f => try_file (fpath f) (process_keyed_file f) st) (scores, log) fs).1
  = category_keys scores ∪ ⋃ (file_keys <$> fs).
Proof.
  induction fs as [|f fs IH]; intros scores log; simpl.
  - by rewrite union_empty_r_L.
  - rewrite (surjective_pairing (try_file _ _ _)), IH, try_file_data. simpl.
    rewrite process_keyed_file_state, category_keys_foldl_record.
    symmetry. apply (assoc_L (∪)).
Qed.

Lemma union_list_fmap_Permutation {A} (g : A -> gset pystr) (l l' : list A) :
  l ≡ₚ l' -> ⋃ (g <$> l) = ⋃ (g <$> l').
Proof.
  intros Hperm. apply set_eq. intros x. rewrite !elem_of_union_list.
  assert (∀ X, X ∈ g <$> l <-> X ∈ g <$> l') as Hiff by (intros X; by rewrite Hperm).
  split; intros (X & HX & Hx); exists X; (split; [by apply Hiff|done]).
Qed.

(** The keyed columns do not depend on the order of the files. *)
Lemma all_files_of_collect_Permutation (fs fs' : list xfile) :
  fs ≡ₚ fs' ->
  all_files_of (collect_keyed fs).1 = all_files_of (collect_keyed fs').1.
Proof.
  intros Hperm. unfold all_files_of, collect_keyed.
  by rewrite !category_keys_collect, (union_list_fmap_Permutation _ _ _ Hperm).
Qed.

Lemma all_files_of_spec (scores : gmap pystr (gmap pystr object)) :
  Sorted str_le (all_files_of scores) ∧ NoDup (all_files_of scores)
  ∧ ∀ key, key ∈ all_files_of scores
           <-> ∃ student_id, is_Some (score_at scores student_id key).
Proof.
  unfold all_files_of, sorted. split; [apply Sorted_merge_sort, _|]. split.
  - rewrite merge_sort_Permutation. apply NoDup_elements.
  - intros key. by rewrite merge_sort_Permutation, elem_of_elements, elem_of_category_keys.
Qed.

(** C4, as the code has it. The columns are the seven fixed columns, then
    the category keys of the SA mapping in lexicographic order without
    repetition, then those of the LA mapping likewise, then the TL column.
    The keys of a keyed mapping are those under which some student has a
    score. The columns are the same for any order of the files. *)
Theorem summary_columns_layout (all_files all_files' : list xfile) :
  df_columns (create_grade_summary all_files)
  = fixed_columns
    ++ all_files_of (collect_keyed (sa_files all_files)).1
    ++ all_files_of (collect_keyed (la_files all_files)).1
    ++ [py "TL讨论"]
  ∧ (∀ scores : gmap pystr (gmap pystr object),
       Sorted str_le (all_files_of scores) ∧ NoDup (all_files_of scores)
       ∧ ∀ key, key ∈ all_files_of scores
                <-> ∃ student_id, is_Some (score_at scores student_id key))
  ∧ (all_files' ≡ₚ all_files ->
     df_columns (create_grade_summary all_files')
     = df_columns (create_grade_summary all_files)).
Proof.
  split; [done|]. split; [apply all_files_of_spec|].
  intros Hperm. unfold create_grade_summary, merge_scores, summary_columns.
  cbn [df_columns].
  rewrite (all_files_of_collect_Permutation (sa_files all_files') (sa_files all_files)),
    (all_files_of_collect_Permutation (la_files all_files') (la_files all_files));
    [done|unfold la_files; by rewrite Hperm|unfold sa_files; by rewrite Hperm].
Qed.

Lemma keyed_score_score_at (scores : gmap pystr (gmap pystr object)) student_id file :
  keyed_score scores student_id file
  = match score_at scores student_id file with
    | Some score => C_obj score
    | None => C_int 0
    end.
Proof. unfold keyed_score, score_at. by destruct (scores !! student_id). Qed.

Lemma summary_row_length all_sa all_la sa la tl i student :
  length (summary_row all_sa all_la sa la tl i student)
  = length (summary_columns all_sa all_la).
Proof.
  unfold summary_row, summary_columns, fixed_columns.
  rewrite !length_app, !length_map. simpl. lia.
Qed.

(** Lookups in a list made of four parts. *)
Lemma lookup_four_parts {A} (l1 l2 l3 l4 : list A) :
  (∀ j, j < length l2 -> (l1 ++ l2 ++ l3 ++ l4) !! (length l1 + j) = l2 !! j)
  ∧ (∀ j, j < length l3 ->
       (l1 ++ l2 ++ l3 ++ l4) !! (length l1 + length l2 + j) = l3 !! j)
  ∧ (∀ j, (l1 ++ l2 ++ l3 ++ l4) !! (length l1 + length l2 + length l3 + j) = l4 !! j).
Proof.
  split; [|split]; intros j.
  - intros Hj. rewrite lookup_app_r by lia. rewrite lookup_app_l by lia. f_equal. lia.
  - intros Hj. rewrite lookup_app_r by lia. rewrite lookup_app_r by lia.
    rewrite lookup_app_l by lia. f_equal. lia.
  - rewrite lookup_app_r by lia. rewrite lookup_app_r by lia.
    rewrite lookup_app_r by lia. f_equal. lia.
Qed.

Lemma summary_row_sa all_sa all_la sa la tl i student j file :
  all_sa !! j = Some file ->
  summary_row all_sa all_la sa la tl i student !! (7 + j)
  = Some (keyed_score sa (student_id student) file).
Proof.
  intros Hj. unfold summary_row.
  match goal with |- (?l1 ++ ?l2 ++ ?l3 ++ ?l4) !! _ = _ =>
    etrans; [apply (proj1 (lookup_four_parts l1 l2 l3 l4) j)|] end.
  - rewrite length_map. by eapply lookup_lt_Some.
  - by rewrite list_lookup_fmap, Hj.
Qed.

Lemma summary_row_la all_sa all_la sa la tl i student j file :
  all_la !! j = Some file ->
  summary_row all_sa all_la sa la tl i student !! (7 + length all_sa + j)
  = Some (keyed_score la (student_id student) file).
Proof.
  intros Hj. unfold summary_row.
  rewrite <- (length_map (keyed_score sa (student_id student)) all_sa).
  match goal with |- (?l1 ++ ?l2 ++ ?l3 ++ ?l4) !! _ = _ =>
    etrans; [apply (proj1 (proj2 (lookup_four_parts l1 l2 l3 l4)) j)|] end.
  - rewrite length_map. by eapply lookup_lt_Some.
  - by rewrite list_lookup_fmap, Hj.
Qed.

Lemma summary_row_tl all_sa all_la sa la tl i student :
  summary_row all_sa all_la sa la tl i student !! (7 + length all_sa + length all_la)
  = Some (tl_score tl (student_id student)).
Proof.
  unfold summary_row.
  rewrite <- (length_map (keyed_score sa (student_id student)) all_sa).
  rewrite <- (length_map (keyed_score la (student_id student)) all_la).
  rewrite <- (Nat.add_0_r (_ + length (map _ all_la))).
  match goal with |- (?l1 ++ ?l2 ++ ?l3 ++ ?l4) !! _ = _ =>
    etrans; [apply (proj2 (proj2 (lookup_four_parts l1 l2 l3 l4)) 0)|] end.
  done.
Qed.

Lemma summary_columns_sa all_sa all_la j file :
  all_sa !! j = Some file -> summary_columns all_sa all_la !! (7 + j) = Some file.
Proof.
  intros Hj. unfold summary_columns.
  match goal with |- (?l1 ++ ?l2 ++ ?l3 ++ ?l4) !! _ = _ =>
    etrans; [apply (proj1 (lookup_four_parts l1 l2 l3 l4) j)|] end;
    [by eapply lookup_lt_Some|done].
Qed.

Lemma summary_columns_la all_sa all_la j file :
  all_la !! j = Some file ->
  summary_columns all_sa all_la !! (7 + length all_sa + j) = Some file.
Proof.
  intros Hj. unfold summary_columns.
  match goal with |- (?l1 ++ ?l2 ++ ?l3 ++ ?l4) !! _ = _ =>
    etrans; [apply (proj1 (proj2 (lookup_four_parts l1 l2 l3 l4)) j)|] end;
    [by eapply lookup_lt_Some|done].
Qed.

(** The rows depend on the scores of the students of the roster only. *)
Lemma summary_data_roster_only (all_sa all_la : list pystr)
    (sa la sa' la' : gmap pystr (gmap pystr object)) (tl tl' : gmap pystr object)
    (cl_students : list StudentRecord) :
  (∀ student, student ∈ cl_students ->
     sa' !! student_id student = sa !! student_id student
     ∧ la' !! student_id student = la !! student_id student
     ∧ tl' !! student_id student = tl !! student_id student) ->
  summary_data all_sa all_la sa' la' tl' cl_students
  = summary_data all_sa all_la sa la tl cl_students.
Proof.
  intros Hagree. unfold summary_data. apply list_eq. intros i.
  rewrite !list_lookup_imap.
  destruct (cl_students !! i) as [student|] eqn:Hi; [|done]. simpl. f_equal.
  destruct (Hagree student) as (Hsa & Hla & Htl); [by eapply list_elem_of_lookup_2|].
  unfold summary_row, keyed_score, tl_score. by rewrite Hsa, Hla, Htl.
Qed.

(** C2. The summary has one row per roster record, in roster order, with
    that record's student number; its cell under a category key is the score
    recorded for that student number under that key, and [0] when there is
    none, for the SA columns, the LA columns and the TL column alike. A score
    recorded for a student number that is not in the roster gives no row and
    no cell: no row carries that student number, and the rows are the same
    for any scores that agree on the student numbers of the roster. *)
Theorem merge_is_left_join
    (cl_students : list StudentRecord)
    (sa_scores la_scores : gmap pystr (gmap pystr object))
    (tl_scores : gmap pystr object) :
  let df := merge_scores cl_students sa_scores la_scores tl_scores in
  let all_sa_files := all_files_of sa_scores in
  let all_la_files := all_files_of la_scores in
  length (df_rows df) = length cl_students
  ∧ (∀ i student, cl_students !! i = Some student ->
       ∃ row, df_rows df !! i = Some row
         ∧ length row = length (df_columns df)
         ∧ row !! 0 = Some (C_int (S i))
         ∧ row !! 2 = Some (C_str (student_id student))
         ∧ (∀ j file, all_sa_files !! j = Some file ->
              df_columns df !! (7 + j) = Some file
              ∧ row !! (7 + j)
                = Some (match score_at sa_scores (student_id student) file with
                        | Some score => C_obj score
                        | None => C_int 0
                        end))
         ∧ (∀ j file, all_la_files !! j = Some file ->
              df_columns df !! (7 + length all_sa_files + j) = Some file
              ∧ row !! (7 + length all_sa_files + j)
                = Some (match score_at la_scores (student_id student) file with
                        | Some score => C_obj score
                        | None => C_int 0
                        end))
         ∧ row !! (7 + length all_sa_files + length all_la_files)
           = Some (match tl_scores !! student_id student with
                   | Some score => C_obj score
                   | None => C_int 0
                   end))
  ∧ (∀ id, id ∉ student_id <$> cl_students ->
       ∀ row, row ∈ df_rows df -> row !! 2 ≠ Some (C_str id))
  ∧ (∀ (sa' la' : gmap pystr (gmap pystr object)) (tl' : gmap pystr object)
       (sa_columns la_columns : list pystr),
       (∀ student, student ∈ cl_students ->
          sa' !! student_id student = sa_scores !! student_id student
          ∧ la' !! student_id student = la_scores !! student_id student
          ∧ tl' !! student_id student = tl_scores !! student_id student) ->
       summary_data sa_columns la_columns sa' la' tl' cl_students
       = summary_data sa_columns la_columns sa_scores la_scores tl_scores cl_students).
Proof.
  intros df all_sa_files all_la_files. unfold df, merge_scores. cbn [df_rows df_columns].
  fold all_sa_files all_la_files.
  split; [apply length_imap|]. split; [|split].
  - intros i student Hi. eexists. unfold summary_data.
    rewrite list_lookup_imap, Hi. split; [done|].
    split; [apply summary_row_length|]. split; [done|]. split; [done|].
    split; [|split].
    + intros j file Hj. split; [by apply summary_columns_sa|].
      by rewrite (summary_row_sa _ _ _ _ _ _ _ _ _ Hj), keyed_score_score_at.
    + intros j file Hj. split; [by apply summary_columns_la|].
      by rewrite (summary_row_la _ _ _ _ _ _ _ _ _ Hj), keyed_score_score_at.
    + apply summary_row_tl.
  - intros id Hid row Hrow Hrow2. apply Hid.
    unfold summary_data in Hrow.
    apply list_elem_of_lookup in Hrow as [i Hrow].
    rewrite list_lookup_imap in Hrow.
    destruct (cl_students !! i) as [student|] eqn:Hi; [|done].
    injection Hrow as <-. injection Hrow2 as <-.
    apply list_elem_of_fmap. exists student. split; [done|].
    by eapply list_elem_of_lookup_2.
  - intros sa' la' tl' sa_columns la_columns. apply summary_data_roster_only.
Qed.

(** C8, as the code has it. When the roster is empty nothing is written.
    Otherwise one file is written, under the fixed name, holding the summary:
    its labels and one row per roster record, each as wide as the labels. *)
Theorem export_writes_once_unless_empty (all_files : list xfile) :
  let cl_students := (collect_students (cl_files all_files)).1 in
  match cl_students with
  | [] => main all_files = []
  | _ :: _ =>
      main all_files = [(default_output, create_grade_summary all_files)]
      ∧ length (df_rows (create_grade_summary all_files)) = length cl_students
      ∧ Forall (fun row => length row = length (df_columns (create_grade_summary all_files)))
               (df_rows (create_grade_summary all_files))
  end.
Proof.
  intros cl_students.
  assert (length (df_rows (create_grade_summary all_files)) = length cl_students)
    as Hlen by apply length_imap.
  unfold main, export_summary_with_stats. rewrite Hlen.
  destruct cl_students as [|student rest] eqn:Hroster; [done|].
  cbn [length Nat.eqb]. split; [done|]. split; [done|].
  apply Forall_forall. intros row Hrow.
  unfold create_grade_summary, merge_scores, summary_data in *.
  cbn [df_rows df_columns] in *.
  apply list_elem_of_lookup in Hrow as [i Hrow].
  rewrite list_lookup_imap in Hrow.
  destruct (_ !! i) as [student'|]; [|done]. injection Hrow as <-.
  apply summary_row_length.
Qed.
End Merge.

Section MergeChecks.
#[local] Existing Instance ascii_python.

(** The scenario: the row of [20230001A] has [85] under [SA1], and a roster
    record without an entry has [0] there. *)
Example scenario_summary :
  let other := {| student_id := py "20230002B"; student_name := py "Bob";
                  original_seq := py "2"; class_info := py "ClassY";
                  gender_info := py "M"; source_file := py "CL1.xls" |} in
  let sa := (collect_keyed [sheet_file (py "SA1.xls") (scenario_scores 85)]).1 in
  let df := merge_scores [scenario_record; other] sa ∅ ∅ in
  df_columns df !! 7 = Some (py "SA1")
  ∧ (row ← df_rows df !! 0; row !! 7) = Some (C_obj (Int 85))
  ∧ (row ← df_rows df !! 1; row !! 7) = Some (C_int 0).
Proof. vm_compute. repeat split. Qed.

(** C2 on the scenario: an entry for a student number that is not in the
    roster changes no row. *)
Lemma merge_ignores_other_students :
  let sa := (collect_keyed [sheet_file (py "SA1.xls") (scenario_scores 85)]).1 in
  let sa' := record_score (py "99999999X") (py "SA1") (Int 50) sa in
  summary_data [py "SA1"] [] sa' ∅ ∅ [scenario_record]
  = summary_data [py "SA1"] [] sa ∅ ∅ [scenario_record].
Proof.
  intros sa sa'.
  apply (proj2 (proj2 (proj2 (merge_is_left_join [scenario_record] sa ∅ ∅)))).
  intros student ->%list_elem_of_singleton. vm_compute. repeat split.
Defined.

(** C4 as the specification words it fails: there are two keyed mappings,
    SA and LA, and each has its own sorted block of columns, SA first. The
    columns below are neither the fixed columns, the sorted SA keys and the
    TL column, nor the fixed columns, the sorted keys of both mappings
    together and the TL column. *)
Lemma columns_have_two_keyed_blocks :
  let sa := sheet_file (py "SA1.xls") (scenario_scores 85) in
  let la := sheet_file (py "LA1.xls") (scenario_scores 70) in
  let sa_scores := (collect_keyed (sa_files [sa; la])).1 in
  let la_scores := (collect_keyed (la_files [sa; la])).1 in
  let cols := df_columns (create_grade_summary [sa; la]) in
  cols = fixed_columns ++ [py "SA1"; py "LA1"; py "TL讨论"]
  ∧ cols ≠ spec_columns (category_keys sa_scores)
  ∧ cols ≠ spec_columns (category_keys sa_scores ∪ category_keys la_scores).
Proof. vm_compute. repeat split; congruence. Qed.

(** C4 on two files in both orders. *)
Lemma columns_do_not_depend_on_file_order :
  let sa := sheet_file (py "SA1.xls") (scenario_scores 85) in
  let la := sheet_file (py "LA1.xls") (scenario_scores 70) in
  df_columns (create_grade_summary [la; sa]) = df_columns (create_grade_summary [sa; la]).
Proof.
  intros sa la.
  apply (proj2 (proj2 (summary_columns_layout [sa; la] [la; sa]))).
  apply perm_swap.
Defined.

(** C8 as the specification words it fails: with a roster that yields no
    record the run writes no file at all. *)
Lemma empty_roster_writes_nothing :
  let header_only :=
    roster_file (py "CL1.xls") [ [py "序号"; py "学号"; py "姓名"] ] in
  (collect_students (cl_files [header_only])).1 = []
  ∧ main [header_only] = []
  ∧ length (main [header_only]) ≠ 1.
Proof. vm_compute. repeat split; congruence. Qed.

(** With the scenario's roster one file is written, with one row. *)
Example scenario_export :
  let all_files := [roster_file (py "CL1.xls") scenario_roster;
                    sheet_file (py "SA1.xls") (scenario_scores 85)] in
  fst <$> main all_files = [default_output]
  ∧ (length ∘ df_rows ∘ snd) <$> main all_files = [1].
Proof. vm_compute. repeat split. Qed.
End MergeChecks.


(** * Further properties *)

(** ** The engine loop *)

(** X1. The engine loop gives the sheet of the first engine that reads the
    file, every engine before it having failed; it raises only when every
    engine fails, and then what it raises is the failure of the last engine
    (or [NoSheet] when there is no engine at all). *)
Theorem read_excel_first_engine_that_reads {A : Type}
    (read : engine -> exn + A) (engines : list engine) :
  match read_excel read engines with
  | inr df =>
      ∃ before engine after,
        engines = before ++ engine :: after
        ∧ read engine = inr df
        ∧ Forall (engine_fails read) before
  | inl e =>
      Forall (engine_fails read) engines
      ∧ match last engines with
        | Some engine => read engine = inl e
        | None => e = NoSheet
        end
  end.
Proof.
  induction engines as [|engine rest IH]; [by split|].
  destruct rest as [|engine' rest].
  - cbn [read_excel]. destruct (read engine) as [e|df] eqn:Hread.
    + split; [|done]. constructor; [by exists e|constructor].
    + by exists [], engine, [].
  - change (read_excel read (engine :: engine' :: rest))
      with (match read engine with
            | inr df => inr df
            | inl _ => read_excel read (engine' :: rest)
            end).
    destruct (read engine) as [e|df] eqn:Hread.
    + destruct (read_excel read (engine' :: rest)) as [e'|df'].
      * destruct IH as [Hall Hlast]. split; [|by rewrite last_cons_cons].
        constructor; [by exists e|done].
      * destruct IH as (before & en & after & Heq & Hen & Hbefore).
        exists (engine :: before), en, after. rewrite Heq.
        split; [done|]. split; [done|]. constructor; [by exists e|done].
    + by exists [], engine, (engine' :: rest).
Qed.

(** ** Roster sheets *)

Section RosterFurther.
Context `{Python}.

Lemma header_field_id (cell_value : pystr) :
  header_field (lower (strip cell_value)) = Some F_id <-> id_keyword cell_value = true.
Proof.
  unfold header_field, id_keyword. cbn zeta.
  destruct (contains (py "学号") _ || contains (py "student") _ || contains (py "id") _);
    [done|].
  split; [|done]. by repeat case_match.
Qed.

Lemma find_id_cell_in_row_spec row : ∀ j,
  match find_id_cell_in_row j row with
  | Some j' => ∃ k cell, j' = j + k ∧ row !! k = Some cell ∧ id_keyword cell = true
  | None => Forall (fun cell => id_keyword cell = false) row
  end.
Proof.
  induction row as [|cell row IH]; intros j; [by constructor|].
  cbn [find_id_cell_in_row]. fold (id_keyword cell).
  destruct (id_keyword cell) eqn:Hcell.
  - exists 0, cell. split; [lia|done].
  - specialize (IH (S j)). destruct (find_id_cell_in_row (S j) row) as [j'|].
    + destruct IH as (k & c & -> & Hk & Hc). exists (S k), c. split; [lia|done].
    + by constructor.
Qed.

Lemma find_id_cell_from_spec rows : ∀ i,
  match find_id_cell_from i rows with
  | Some (i', j) =>
      ∃ k row cell, i' = i + k ∧ rows !! k = Some row
                    ∧ row !! j = Some cell ∧ id_keyword cell = true
  | None => Forall (Forall (fun cell => id_keyword cell = false)) rows
  end.
Proof.
  induction rows as [|row rows IH]; intros i; [by constructor|].
  cbn [find_id_cell_from].
  pose proof (find_id_cell_in_row_spec row 0) as Hrow.
  destruct (find_id_cell_in_row 0 row) as [j|].
  - destruct Hrow as (k & cell & -> & Hk & Hcell).
    exists 0, row, cell. split; [lia|done].
  - specialize (IH (S i)). destruct (find_id_cell_from (S i) rows) as [[i' j]|].
    + destruct IH as (k & r & cell & -> & Hk & Hj & Hcell).
      exists (S k), r, cell. split; [lia|done].
    + by constructor.
Qed.

(** Where the row scan finds its anchor: a keyword cell among the first 20
    rows. *)
Lemma find_id_cell_Some (df : RawGrid) header_row student_id_col :
  find_id_cell df = Some (header_row, student_id_col) ->
  header_row < 20
  ∧ ∃ row cell, df !! header_row = Some row ∧ row !! student_id_col = Some cell
                ∧ id_keyword cell = true.
Proof.
  unfold find_id_cell. intros Hfind.
  pose proof (find_id_cell_from_spec (take (20 `min` length df) df) 0) as Hspec.
  rewrite Hfind in Hspec. destruct Hspec as (k & row & cell & -> & Hk & Hj & Hcell).
  apply lookup_take_Some in Hk as [Hk Hlt]. split; [simpl; lia|]. by exists row, cell.
Qed.

Lemma find_id_cell_None (df : RawGrid) :
  (∀ i row, i < 20 -> df !! i = Some row -> Forall (fun cell => id_keyword cell = false) row) ->
  find_id_cell df = None.
Proof.
  intros Hno. destruct (find_id_cell df) as [[header_row col]|] eqn:Hfind; [|done].
  apply find_id_cell_Some in Hfind as (Hlt & row & cell & Hrow & Hcell & Hkw).
  specialize (Hno _ _ Hlt Hrow). rewrite Forall_forall in Hno.
  rewrite (Hno cell) in Hkw; [done|]. by eapply list_elem_of_lookup_2.
Qed.

(** Where the header search finds its row, and what its 学号 column is. *)
Lemma find_header_Some (df : RawGrid) header_row_idx col_mapping :
  find_header df = Some (header_row_idx, col_mapping) ->
  header_row_idx < 20
  ∧ ∃ row, df !! header_row_idx = Some row
      ∧ ∀ j, col_mapping !! F_id = Some j ->
             ∃ cell, row !! j = Some cell ∧ id_keyword cell = true.
Proof.
  unfold find_header. intros Hfind.
  pose proof (find_header_from_spec (take (20 `min` length df) df) 0) as Hspec.
  rewrite Hfind in Hspec. destruct Hspec as (k & row & -> & Hk & _ & -> & _).
  apply lookup_take_Some in Hk as [Hk Hlt]. split; [simpl; lia|].
  exists row. split; [done|]. intros j [Hj _]%scan_header_row_mapping.
  unfold cell_field in Hj. destruct (row !! j) as [cell|]; [|done].
  exists cell. split; [done|]. by apply header_field_id.
Qed.

(** X2. A roster sheet in which no cell of the first 20 rows holds a
    student-number keyword (学号, student, id) yields no record: what was
    collected before is returned as it is, whichever path is taken. *)
Theorem extract_students_without_id_keyword
    (cl_file : pystr) (df : RawGrid) (cl_students : list StudentRecord) :
  (∀ i row, i < 20 -> df !! i = Some row ->
     Forall (fun cell => id_keyword cell = false) row) ->
  extract_students cl_file df cl_students = cl_students.
Proof.
  intros Hno. unfold extract_students, extract_fallback.
  rewrite (find_id_cell_None _ Hno).
  destruct (find_header df) as [[header_row_idx col_mapping]|] eqn:Hheader; [|done].
  destruct (col_mapping !! F_id) as [j|] eqn:Hid; [|done].
  apply find_header_Some in Hheader as (Hlt & row & Hrow & Hcol).
  destruct (Hcol j Hid) as (cell & Hcell & Hkw).
  specialize (Hno _ _ Hlt Hrow). rewrite Forall_forall in Hno.
  rewrite (Hno cell) in Hkw; [done|]. by eapply list_elem_of_lookup_2.
Qed.

Lemma py_nan : py "nan" = [110%N; 97%N; 110%N].
Proof. reflexivity. Qed.

Lemma mapped_row_length col_mapping student_id_col cl_file row_data :
  length (mapped_row col_mapping student_id_col cl_file row_data) <= 1.
Proof. unfold mapped_row. repeat case_match; simpl; lia. Qed.

Lemma fallback_row_length student_id_col cl_file row_data :
  length (fallback_row student_id_col cl_file row_data) <= 1.
Proof. unfold fallback_row. repeat case_match; simpl; lia. Qed.

Lemma search_window_length header_row (df : RawGrid) :
  length (search_window header_row df) <= 30.
Proof. unfold search_window. rewrite length_take. lia. Qed.

Lemma length_concat_le {A B} (f : A -> list B) (l : list A) :
  (∀ x, length (f x) <= 1) -> length (concat (f <$> l)) <= length l.
Proof.
  intros Hf. induction l as [|x l IH]; [done|].
  change (concat (f <$> x :: l)) with (f x ++ concat (f <$> l)).
  rewrite length_app. specialize (Hf x). simpl. lia.
Qed.

(** What one sheet adds does not depend on what was collected before. *)
Lemma extract_students_app cl_file (df : RawGrid) (cl_students : list StudentRecord) :
  extract_students cl_file df cl_students
  = cl_students ++ extract_students cl_file df [].
Proof.
  unfold extract_students, extract_mapped, extract_fallback.
  repeat case_match; rewrite ?foldl_append; by rewrite ?app_nil_r.
Qed.

(** X3. A roster sheet only appends: the records collected before it stay
    first and unchanged, what the sheet adds does not depend on them, and
    one sheet adds at most 30 records. *)
Theorem extract_students_appends_at_most_30
    (cl_file : pystr) (df : RawGrid) (cl_students : list StudentRecord) :
  extract_students cl_file df cl_students
  = cl_students ++ extract_students cl_file df []
  ∧ length (extract_students cl_file df []) <= 30.
Proof.
  split; [apply extract_students_app|].
  unfold extract_students, extract_mapped, extract_fallback.
  repeat case_match; rewrite ?foldl_append; simpl; try lia.
  - etrans; [apply length_concat_le, mapped_row_length|apply search_window_length].
  - etrans; [apply length_concat_le, fallback_row_length|apply search_window_length].
  - etrans; [apply length_concat_le, fallback_row_length|apply search_window_length].
Qed.

(** The records of a sheet, row by row. *)
Lemma elem_of_extract_students cl_file (df : RawGrid) r :
  r ∈ extract_students cl_file df [] ->
  ∃ student_id_col row_data,
    (∃ col_mapping, r ∈ mapped_row col_mapping student_id_col cl_file row_data)
    ∨ r ∈ fallback_row student_id_col cl_file row_data.
Proof.
  unfold extract_students, extract_mapped, extract_fallback.
  repeat case_match; try (by intros ?%elem_of_nil);
    intros (row & _ & Hr)%elem_of_foldl_append; eauto 6.
Qed.

(** The fields that the row scan has filled stay as they are, and what it
    fills has the shape of its field. *)
Lemma truthy_false (s : pystr) : truthy s = false <-> s = [].
Proof. by destruct s. Qed.

Lemma infer_cell_keeps student_id_col k cell st :
  let st' := infer_cell student_id_col k cell st in
  (i_name st ≠ [] -> i_name st' = i_name st)
  ∧ (i_seq st ≠ [] -> i_seq st' = i_seq st)
  ∧ (i_class st ≠ [] -> i_class st' = i_class st)
  ∧ (i_gender st ≠ [] -> i_gender st' = i_gender st).
Proof.
  unfold infer_cell.
  destruct (negb (k =? student_id_col) && truthy cell
            && negb (str_eqb cell (py "nan"))); [|done].
  destruct (negb (truthy (i_name st)) && _) eqn:Hname.
  { apply andb_true_iff in Hname as [Hname _].
    apply negb_true_iff, truthy_false in Hname.
    destruct ((2 <=? _) && _); [|done]. destruct (negb (any_in _ _)); [|done].
    simpl. by repeat split. }
  destruct (negb (truthy (i_seq st)) && _ && _) eqn:Hseq.
  { apply andb_true_iff in Hseq as [[Hseq _]%andb_true_iff _].
    apply negb_true_iff, truthy_false in Hseq. simpl. by repeat split. }
  destruct (negb (truthy (i_gender st)) && bool_decide _) eqn:Hg.
  { apply andb_true_iff in Hg as [Hg _].
    apply negb_true_iff, truthy_false in Hg. simpl. by repeat split. }
  destruct (negb (truthy (i_class st))) eqn:Hclass; [|done].
  apply negb_true_iff, truthy_false in Hclass.
  destruct (any_in _ _ && _ && _); [|done].
  simpl. by repeat split.
Qed.

Lemma infer_cell_shape student_id_col k cell st :
  name_shape (i_name st) ∧ seq_shape (i_seq st) ∧ class_shape (i_class st) ->
  let st' := infer_cell student_id_col k cell st in
  name_shape (i_name st') ∧ seq_shape (i_seq st') ∧ class_shape (i_class st').
Proof.
  intros (Hn & Hs & Hc). unfold infer_cell.
  destruct (negb (k =? student_id_col) && truthy cell
            && negb (str_eqb cell (py "nan"))); [|done].
  destruct (negb (truthy (i_name st)) && _) eqn:Hname.
  { apply andb_true_iff in Hname as [_ Hnum]. apply negb_true_iff in Hnum.
    apply orb_false_iff in Hnum as [_ Hnum].
    destruct ((2 <=? _) && _) eqn:Hlen; [|done].
    destruct (negb (any_in _ _)) eqn:Hkw; [|done].
    apply andb_true_iff in Hlen as [Hlo Hhi].
    apply Nat.leb_le in Hlo, Hhi. apply negb_true_iff in Hkw.
    simpl. split; [|done]. right. by repeat split. }
  destruct (negb (truthy (i_seq st)) && _ && _) eqn:Hseq.
  { apply andb_true_iff in Hseq as [[_ Hdig]%andb_true_iff Hlen].
    apply Nat.leb_le in Hlen. simpl. split; [done|]. split; [|done]. by right. }
  destruct (negb (truthy (i_gender st)) && bool_decide _); [done|].
  destruct (negb (truthy (i_class st))); [|done].
  destruct (any_in _ _ && _ && _) eqn:Hclass; [|done].
  apply andb_true_iff in Hclass as [[Hkw Hhi]%andb_true_iff Hlo].
  apply Nat.leb_le in Hlo, Hhi. simpl. split; [done|]. split; [done|]. by right.
Qed.

Lemma infer_cells_shape student_id_col row_data : ∀ k st,
  name_shape (i_name st) ∧ seq_shape (i_seq st) ∧ class_shape (i_class st) ->
  let st' := infer_cells student_id_col k row_data st in
  name_shape (i_name st') ∧ seq_shape (i_seq st') ∧ class_shape (i_class st').
Proof.
  induction row_data as [|cell rest IH]; intros k st Hst; [done|].
  simpl. apply IH. by apply infer_cell_shape.
Qed.

(** X4. In the row scan a field that has been filled is never written
    again: over the rest of the row the name, the sequence number, the class
    and the gender keep the first value they got. *)
Theorem infer_cells_fill_once
    (student_id_col k : nat) (row_data : list pystr) (st : inferred) :
  let st' := infer_cells student_id_col k row_data st in
  (i_name st ≠ [] -> i_name st' = i_name st)
  ∧ (i_seq st ≠ [] -> i_seq st' = i_seq st)
  ∧ (i_class st ≠ [] -> i_class st' = i_class st)
  ∧ (i_gender st ≠ [] -> i_gender st' = i_gender st).
Proof.
  revert k st. induction row_data as [|cell rest IH]; intros k st; [done|].
  cbn [infer_cells]. cbn zeta.
  destruct (infer_cell_keeps student_id_col k cell st) as (Hn & Hs & Hc & Hg).
  destruct (IH (S k) (infer_cell student_id_col k cell st)) as (Hn' & Hs' & Hc' & Hg').
  cbn zeta in *.
  repeat split; intros Hne.
  - rewrite Hn', (Hn Hne); [done|]. by rewrite (Hn Hne).
  - rewrite Hs', (Hs Hne); [done|]. by rewrite (Hs Hne).
  - rewrite Hc', (Hc Hne); [done|]. by rewrite (Hc Hne).
  - rewrite Hg', (Hg Hne); [done|]. by rewrite (Hg Hne).
Qed.

(** X5. Whatever the row, a record of the row scan has a name that is
    empty or 2 to 15 long, not purely numeric and free of the excluded
    class words; a sequence number that is empty or at most 3 digits; and a
    class that is empty or 3 to 20 long with one of the class keywords. *)
Theorem fallback_record_shapes
    (cl_file : pystr) (df : RawGrid) :
  Forall (fun r => name_shape (student_name r)
                   ∧ seq_shape (original_seq r)
                   ∧ class_shape (class_info r))
         (extract_fallback cl_file df []).
Proof.
  apply Forall_forall. intros r. unfold extract_fallback.
  destruct (find_id_cell df) as [[header_row col]|]; [|by intros ?%elem_of_nil].
  intros (row & _ & Hr)%elem_of_foldl_append. unfold fallback_row in Hr.
  repeat (case_match; try by apply elem_of_nil in Hr).
  apply list_elem_of_singleton in Hr as ->. simpl.
  apply infer_cells_shape. simpl. unfold name_shape, seq_shape, class_shape. tauto.
Qed.

Lemma mapped_row_record col_mapping student_id_col cl_file row_data r :
  r ∈ mapped_row col_mapping student_id_col cl_file row_data ->
  source_file r = path_name cl_file
  ∧ valid_student_id (student_id r) = true
  ∧ (original_seq r = [] ∨ str_isdigit (original_seq r) = true).
Proof.
  unfold mapped_row. intros Hr.
  destruct (row_data !! student_id_col) as [cell|]; [|by apply elem_of_nil in Hr].
  destruct (valid_student_id (strip cell)) eqn:Hvalid; [|by apply elem_of_nil in Hr].
  apply list_elem_of_singleton in Hr as ->. simpl.
  split; [done|]. split; [done|].
  destruct (mapped_cell col_mapping F_seq row_data) as [seq_value|]; [|by left].
  destruct (truthy seq_value && negb (str_eqb seq_value (py "nan"))
            && str_isdigit seq_value) eqn:Hseq; [|by left].
  right. by apply andb_true_iff in Hseq as [_ Hseq].
Qed.

Lemma fallback_row_record student_id_col cl_file row_data r :
  r ∈ fallback_row student_id_col cl_file row_data ->
  source_file r = path_name cl_file
  ∧ valid_student_id (student_id r) = true
  ∧ (original_seq r = [] ∨ str_isdigit (original_seq r) = true).
Proof.
  unfold fallback_row. intros Hr.
  destruct (row_data !! student_id_col) as [cell|]; [|by apply elem_of_nil in Hr].
  destruct (valid_student_id (strip cell)) eqn:Hvalid; [|by apply elem_of_nil in Hr].
  destruct (truthy (strip cell)); [|by apply elem_of_nil in Hr].
  apply list_elem_of_singleton in Hr as ->. simpl.
  split; [done|]. split; [done|].
  destruct (infer_cells_shape student_id_col row_data 0
              {| i_name := []; i_seq := []; i_class := []; i_gender := [] |})
    as (_ & [Hseq|[Hseq _]] & _); [|by left|by right].
  simpl. unfold name_shape, seq_shape, class_shape. tauto.
Qed.

(** X6. Every record taken from a roster sheet, by either path, carries
    the name of its file as source, a student number that passes the
    student number test, and a sequence number that is empty or made of
    digits only. *)
Theorem extracted_records_are_well_formed (cl_file : pystr) (df : RawGrid) :
  Forall (fun r => source_file r = path_name cl_file
                   ∧ valid_student_id (student_id r) = true
                   ∧ (original_seq r = [] ∨ str_isdigit (original_seq r) = true))
         (extract_students cl_file df []).
Proof.
  apply Forall_forall. intros r Hr.
  apply elem_of_extract_students in Hr as (col & row & [[m Hr]|Hr]).
  - by eapply mapped_row_record.
  - by eapply fallback_row_record.
Qed.

Lemma mapped_text_not_nan (cell : option pystr) :
  match cell with
  | Some value =>
      if truthy value && negb (str_eqb value (py "nan")) then value else []
  | None => []
  end ≠ py "nan".
Proof.
  destruct cell as [value|]; [|by rewrite py_nan].
  destruct (truthy value && negb (str_eqb value (py "nan"))) eqn:Hcond;
    [|by rewrite py_nan].
  apply andb_true_iff in Hcond as [_ Hnan].
  by apply negb_true_iff, bool_decide_eq_false in Hnan.
Qed.

Lemma mapped_seq_not_nan (cell : option pystr) :
  match cell with
  | Some value =>
      if truthy value && negb (str_eqb value (py "nan")) && str_isdigit value
      then value else []
  | None => []
  end ≠ py "nan".
Proof.
  destruct cell as [value|]; [|by rewrite py_nan].
  destruct (truthy value && negb (str_eqb value (py "nan")) && str_isdigit value)
    eqn:Hcond; [|by rewrite py_nan].
  apply andb_true_iff in Hcond as [[_ Hnan]%andb_true_iff _].
  by apply negb_true_iff, bool_decide_eq_false in Hnan.
Qed.

(** X7. In the extraction by column the text of a missing cell never gets
    into a record: no field of a record is [nan]. *)
Theorem mapped_records_hold_no_nan
    (col_mapping : gmap field nat) (student_id_col : nat) (cl_file : pystr)
    (header_row_idx : nat) (df : RawGrid) :
  Forall no_nan
    (extract_mapped col_mapping student_id_col cl_file header_row_idx df []).
Proof.
  apply Forall_forall. intros r. unfold extract_mapped.
  intros (row & _ & Hr)%elem_of_foldl_append. unfold mapped_row in Hr.
  destruct (row !! student_id_col) as [cell|]; [|by apply elem_of_nil in Hr].
  destruct (valid_student_id (strip cell)) eqn:Hvalid; [|by apply elem_of_nil in Hr].
  apply list_elem_of_singleton in Hr as ->. unfold no_nan. simpl.
  split.
  { unfold valid_student_id in Hvalid.
    do 4 (apply andb_true_iff in Hvalid as [Hvalid _]).
    apply andb_true_iff in Hvalid as [_ Hnan].
    by apply negb_true_iff, bool_decide_eq_false in Hnan. }
  pose proof (mapped_text_not_nan (mapped_cell col_mapping F_name row)) as Hname.
  pose proof (mapped_text_not_nan (mapped_cell col_mapping F_class row)) as Hclass.
  pose proof (mapped_text_not_nan (mapped_cell col_mapping F_gender row)) as Hgender.
  pose proof (mapped_seq_not_nan (mapped_cell col_mapping F_seq row)) as Hseq.
  done.
Qed.

(** X8. Only the first 50 rows of a roster sheet are ever read: the header
    row or the keyword cell is among the first 20 rows and the search
    window is the 30 rows after it, so cutting the sheet after row 50
    changes nothing. *)
Theorem extract_students_reads_first_50_rows
    (cl_file : pystr) (df : RawGrid) (cl_students : list StudentRecord) :
  extract_students cl_file (take 50 df) cl_students
  = extract_students cl_file df cl_students.
Proof.
  assert (take (20 `min` length (take 50 df)) (take 50 df)
          = take (20 `min` length df) df) as Hhead.
  { rewrite take_take, length_take. f_equal. lia. }
  assert (∀ header_row, header_row < 20 ->
          search_window header_row (take 50 df) = search_window header_row df)
    as Hwindow.
  { intros header_row Hlt. apply list_eq. intros k.
    rewrite !search_window_lookup. case_decide; [|done].
    apply lookup_take_lt. lia. }
  unfold extract_students, extract_mapped, extract_fallback, find_header, find_id_cell.
  rewrite Hhead.
  fold (find_header df). fold (find_id_cell df).
  destruct (find_id_cell df) as [[anchor_row anchor_col]|] eqn:Hanchor.
  - apply find_id_cell_Some in Hanchor as [Hanchor _].
    destruct (find_header df) as [[header_row_idx col_mapping]|] eqn:Hheader.
    + apply find_header_Some in Hheader as [Hheader _].
      by rewrite (Hwindow _ Hheader), (Hwindow _ Hanchor).
    + by rewrite (Hwindow _ Hanchor).
  - destruct (find_header df) as [[header_row_idx col_mapping]|] eqn:Hheader; [|done].
    apply find_header_Some in Hheader as [Hheader _].
    by rewrite (Hwindow _ Hheader).
Qed.
End RosterFurther.

(** ** The loops over files *)

Section FilesFurther.
Context `{Python}.

Lemma try_file_cl f (s : list StudentRecord) (log : list failure) :
  try_file (fpath f) (process_cl_file f) (s, log)
  = (s ++ (try_file (fpath f) (process_cl_file f) ([], [])).1,
     log ++ (try_file (fpath f) (process_cl_file f) ([], [])).2).
Proof.
  unfold try_file, process_cl_file, bind, lift, modify. simpl.
  destruct (read_excel (read_raw f) (engines_for (fpath f))) as [e|df]; simpl.
  - by rewrite app_nil_r.
  - by rewrite extract_students_app, app_nil_r.
Qed.

Lemma collect_students_from fs : ∀ (s : list StudentRecord) (log : list failure),
  foldl (fun st f => try_file (fpath f) (process_cl_file f) st) (s, log) fs
  = (s ++ (collect_students fs).1, log ++ (collect_students fs).2).
Proof.
  unfold collect_students.
  induction fs as [|f fs IH]; intros s log; simpl; [by rewrite !app_nil_r|].
  rewrite try_file_cl, IH.
  rewrite (surjective_pairing (try_file (fpath f) (process_cl_file f) ([], []))).
  rewrite (IH (fst _) (snd _)). simpl. by rewrite !app_assoc.
Qed.

(** X9. The roster of a list of files is the rosters of its parts one
    after the other, and so are the failures printed: records are kept in
    file order and nothing is merged or dropped, also when two files hold the
    same student number. *)
Theorem collect_students_app (fs1 fs2 : list xfile) :
  collect_students (fs1 ++ fs2)
  = ((collect_students fs1).1 ++ (collect_students fs2).1,
     (collect_students fs1).2 ++ (collect_students fs2).2).
Proof.
  unfold collect_students at 1. rewrite foldl_app.
  fold (collect_students fs1).
  rewrite (surjective_pairing (collect_students fs1)) at 1.
  apply collect_students_from.
Qed.

Lemma endswith_xlsx_not_xls (s : pystr) :
  endswith (py ".xlsx") s = true -> endswith (py ".xls") s = false.
Proof.
  unfold endswith.
  change (rev (py ".xlsx")) with [120%N; 115%N; 108%N; 120%N; 46%N].
  change (rev (py ".xls")) with [115%N; 108%N; 120%N; 46%N].
  destruct (rev s) as [|c r]; [done|].
  cbn [startswith]. intros [Hc _]%andb_true_iff.
  apply N.eqb_eq in Hc as <-. done.
Qed.

Lemma filter_none {A} (P : A -> Prop) `{∀ x, Decision (P x)} (l : list A) :
  Forall (fun x => ¬ P x) l -> filter P l = [].
Proof.
  induction 1 as [|x l Hx _ IH]; [done|]. by rewrite filter_cons_False.
Qed.

(** X10. A workbook whose name ends in [.xlsx] is never taken as a roster,
    SA or LA file, whatever marker its name holds: these three steps keep
    only the paths that end in [.xls]. A directory of [.xlsx] workbooks
    therefore gives no roster, and nothing is written. *)
Theorem xlsx_files_are_not_roster_or_keyed (all_files : list xfile) :
  (∀ f, endswith (py ".xlsx") (fpath f) = true ->
        (f ∉ cl_files all_files) ∧ (f ∉ sa_files all_files)
        ∧ (f ∉ la_files all_files))
  ∧ (Forall (fun f => endswith (py ".xlsx") (fpath f) = true) all_files ->
     main all_files = []).
Proof.
  split.
  - intros f Hf. apply endswith_xlsx_not_xls in Hf.
    unfold cl_files, sa_files, la_files.
    repeat split; intros [Hin _]%list_elem_of_filter;
      apply andb_true_iff in Hin as [_ Hin]; congruence.
  - intros Hall. unfold main, create_grade_summary.
    assert (cl_files all_files = []) as ->; [|done].
    apply filter_none. eapply Forall_impl; [exact Hall|].
    intros f Hf%endswith_xlsx_not_xls [_ Hxls]%andb_true_iff. congruence.
Qed.

Lemma category_keys_empty : category_keys (∅ : gmap pystr (gmap pystr object)) = ∅.
Proof. unfold category_keys. by rewrite map_to_list_empty. Qed.

(** X11. The columns of a keyed category are exactly the category keys of
    the files that recorded at least one score: a file that cannot be
    read, has no 得分 column, no 学号 column, or no row with both cells
    present gives no column. *)
Theorem keyed_columns_are_contributing_files (fs : list xfile) (key : pystr) :
  key ∈ all_files_of (collect_keyed fs).1
  <-> ∃ f, f ∈ fs ∧ keyed_file_entries f ≠ [] ∧ key = category_key (fpath f).
Proof.
  unfold all_files_of, sorted, collect_keyed.
  rewrite merge_sort_Permutation, elem_of_elements, category_keys_collect.
  rewrite category_keys_empty, union_empty_l_L, elem_of_union_list. split.
  - intros (X & HX & Hkey). apply list_elem_of_fmap in HX as (f & -> & Hf).
    exists f. split; [done|]. unfold file_keys in Hkey.
    destruct (keyed_file_entries f); [by apply elem_of_empty in Hkey|].
    by apply elem_of_singleton in Hkey.
  - intros (f & Hf & Hentries & ->). exists (file_keys f).
    split; [apply list_elem_of_fmap; eauto|]. unfold file_keys.
    destruct (keyed_file_entries f); [done|]. by apply elem_of_singleton.
Qed.

(** X12. A sheet without 学号 column: when the sheet has a score column
    (得分 for SA and LA, 讨论/ for TL) and at least one row, the first row
    raises the [KeyError] of 学号 and nothing is written; when it has no row,
    nothing is raised. *)
Theorem sheet_without_student_number_column
    (f : xfile) (df : Table) (scores : gmap pystr (gmap pystr object))
    (tl_scores : gmap pystr object) :
  read_excel (read_table f) (engines_for (fpath f)) = inr df ->
  py "学号" ∉ columns df ->
  (is_Some (find_score_col (columns df)) ->
   process_keyed_file f scores
   = (scores, match rows df with
              | [] => inr tt
              | _ :: _ => inl (KeyError (py "学号"))
              end))
  ∧ (py "讨论/" ∈ columns df ->
     process_tl_file f tl_scores
     = (tl_scores, match rows df with
                   | [] => inr tt
                   | _ :: _ => inl (KeyError (py "学号"))
                   end)).
Proof.
  intros Hread Hid. split.
  - intros [score_col Hcol]. unfold process_keyed_file, bind, lift.
    rewrite Hread, Hcol.
    apply find_score_col_Some in Hcol as (_ & _ & _ & Hkw & _).
    rewrite (score_keyword_nonempty _ Hkw), keyed_row_scored.
    by rewrite (for_each_scored_no_id _ _ _ Hid).
  - intros Htl. unfold process_tl_file, bind, lift. rewrite Hread.
    rewrite bool_decide_eq_true_2 by done. rewrite tl_row_scored.
    by rewrite (for_each_scored_no_id _ _ _ Hid).
Qed.

Lemma foldl_insert_twice (entries : list (pystr * object)) (s : gmap pystr object) :
  foldl (fun m e => <[e.1 := e.2]> m)
        (foldl (fun m e => <[e.1 := e.2]> m) s entries) entries
  = foldl (fun m e => <[e.1 := e.2]> m) s entries.
Proof.
  apply map_eq. intros student_id. rewrite !lookup_foldl_insert.
  by destruct (last_entry student_id entries).
Qed.

(** X13. Reading the same file twice in a row changes nothing: the TL
    scores are the same as after reading it once, and so are the scores
    held under every category key and the columns of a keyed category. *)
Theorem reading_a_file_twice (fs : list xfile) (f : xfile) :
  (collect_tl (fs ++ [f; f])).1 = (collect_tl (fs ++ [f])).1
  ∧ (∀ student_id key,
       score_at (collect_keyed (fs ++ [f; f])).1 student_id key
       = score_at (collect_keyed (fs ++ [f])).1 student_id key)
  ∧ all_files_of (collect_keyed (fs ++ [f; f])).1
    = all_files_of (collect_keyed (fs ++ [f])).1.
Proof.
  unfold collect_tl, collect_keyed, all_files_of.
  rewrite !foldl_app. cbn [foldl]. rewrite !try_file_data.
  rewrite !process_tl_file_state, !process_keyed_file_state.
  split; [apply foldl_insert_twice|]. split.
  - intros student_id key. rewrite !score_at_foldl_record.
    case_decide; [|done]. by destruct (last_entry student_id _).
  - rewrite !category_keys_foldl_record. f_equal. f_equal.
    rewrite <- (assoc_L (∪)). f_equal. apply union_idemp_L.
Qed.
End FilesFurther.

(** ** Category keys and rows *)

Section KeysFurther.
Context `{Python}.

Lemma path_name_from_plain (name : pystr) : ∀ acc,
  47%N ∉ name -> path_name_from acc name = acc ++ name.
Proof.
  induction name as [|c name IH]; intros acc Hname; simpl; [by rewrite app_nil_r|].
  apply not_elem_of_cons in Hname as [Hc Hname].
  destruct (N.eqb_spec c 47) as [->|_]; [done|].
  by rewrite IH, <- app_assoc.
Qed.

Lemma path_name_from_dir (dir name : pystr) : ∀ acc,
  47%N ∉ name -> path_name_from acc (dir ++ 47%N :: name) = name.
Proof.
  induction dir as [|c dir IH]; intros acc Hname; simpl.
  - by rewrite path_name_from_plain.
  - destruct (c =? 47)%N; by apply IH.
Qed.

Lemma remove_xls_suffix (name : pystr) :
  46%N ∉ name -> remove_all (py ".xls") (name ++ py ".xls") = name.
Proof.
  unfold remove_all. induction name as [|c name IH]; intros Hname; [done|].
  apply not_elem_of_cons in Hname as [Hc Hname].
  change (remove_from (py ".xls") 0 ((c :: name) ++ py ".xls"))
    with (if startswith (py ".xls") (c :: name ++ py ".xls")
          then remove_from (py ".xls") (length (py ".xls") - 1) (name ++ py ".xls")
          else c :: remove_from (py ".xls") 0 (name ++ py ".xls")).
  change (startswith (py ".xls") (c :: name ++ py ".xls"))
    with ((46 =? c)%N && startswith (py "xls") (name ++ py ".xls")).
  destruct (N.eqb_spec 46 c) as [<-|_]; [done|]. simpl. by rewrite IH.
Qed.

(** X14. The category key of a file is its name without directory and
    without the [.xls] ending, when the name has no other dot: [dir/K.xls]
    and [K.xls] both get the key [K]. *)
Theorem category_key_of_plain_name (dir name : pystr) :
  47%N ∉ name -> 46%N ∉ name ->
  category_key (dir ++ py "/" ++ name ++ py ".xls") = name
  ∧ category_key (name ++ py ".xls") = name.
Proof.
  intros Hslash Hdot. unfold category_key, path_name.
  assert (47%N ∉ name ++ py ".xls") as Hslash'.
  { rewrite elem_of_app. intros [?|Hin]; [done|]. revert Hin. vm_compute.
    intros Hin. repeat (apply elem_of_cons in Hin as [Hin|Hin]; [done|]).
    by apply elem_of_nil in Hin. }
  split.
  - change (py "/" ++ name ++ py ".xls") with (47%N :: (name ++ py ".xls")).
    rewrite path_name_from_dir by done. by apply remove_xls_suffix.
  - rewrite path_name_from_plain by done. by apply remove_xls_suffix.
Qed.

(** X15. Two roster records with the same student number get the same
    scores: their rows of the summary agree in every score column (they may
    differ in the seven fixed columns only). *)
Theorem rows_of_one_student_number_share_scores
    (cl_students : list StudentRecord)
    (sa_scores la_scores : gmap pystr (gmap pystr object))
    (tl_scores : gmap pystr object)
    (i j : nat) (student student' : StudentRecord) (row row' : list cell) :
  cl_students !! i = Some student ->
  cl_students !! j = Some student' ->
  student_id student = student_id student' ->
  df_rows (merge_scores cl_students sa_scores la_scores tl_scores) !! i = Some row ->
  df_rows (merge_scores cl_students sa_scores la_scores tl_scores) !! j = Some row' ->
  drop 7 row = drop 7 row'.
Proof.
  intros Hi Hj Hid. unfold merge_scores, summary_data. cbn [df_rows].
  rewrite !list_lookup_imap, Hi, Hj. intros [= <-] [= <-].
  unfold summary_row. cbn [drop app]. by rewrite Hid.
Qed.
End KeysFurther.

(** ** Student numbers that are never accepted *)

Section IdsFurther.
Context `{Python}.

(** X16. The student number test never accepts a text shorter than 8, nor
    a text made only of digits, dots and dashes: a purely numeric student
    number such as [20230001] or [20230001.0] yields no record. *)
Theorem numeric_student_numbers_are_rejected (s : pystr) :
  isdigit 46%N = false -> isdigit 45%N = false ->
  length s < 8 ∨ Forall (fun c => isdigit c = true ∨ c = 46%N ∨ c = 45%N) s ->
  valid_student_id s = false.
Proof.
  intros Hdot Hdash Hs. apply not_true_iff_false.
  intros (_ & _ & Hlen & _ & (c & Hc & Hnon))%(valid_student_id_spec _ Hdot Hdash).
  destruct Hs as [Hshort|Hall]; [lia|].
  apply list_elem_of_filter in Hc as [[Hc46 Hc45] Hc].
  rewrite Forall_forall in Hall.
  destruct (Hall c Hc) as [Hd|[->| ->]]; congruence.
Qed.
End IdsFurther.

Section FurtherChecks.
#[local] Existing Instance ascii_python.

(** X2 on a sheet with names and classes only. *)
Lemma extract_students_without_id_keyword_check :
  let df := [ [py "姓名"; py "班级"]; [py "Alice20230001"; py "ClassX"] ] in
  extract_students (py "CL1.xls") df [scenario_record] = [scenario_record].
Proof.
  intros df. apply extract_students_without_id_keyword.
  intros [|[|i]] row _ [= <-]; by repeat constructor.
Defined.

(** X12 on the scenario's score sheet with its 学号 column renamed. *)
Lemma sheet_without_student_number_column_check :
  let df := {| columns := [py "编号"; py "得分"; py "讨论/"];
               rows := [ [Some (Str (py "20230001A")); Some (Int 85); Some (Int 3)] ] |} in
  let f := sheet_file (py "SA_TL_1.xls") df in
  process_keyed_file f ∅ = (∅, inl (KeyError (py "学号")))
  ∧ process_tl_file f ∅ = (∅, inl (KeyError (py "学号"))).
Proof.
  intros df f.
  destruct (sheet_without_student_number_column f df ∅ ∅) as [Hkeyed Htl].
  - reflexivity.
  - vm_compute. intros Hin.
    repeat (apply elem_of_cons in Hin as [Hin|Hin]; [discriminate Hin|]).
    by apply elem_of_nil in Hin.
  - split; [apply Hkeyed; by eexists|apply Htl].
    apply (bool_decide_unpack _). vm_compute. exact I.
Defined.

(** X14 on [data/SA1.xls] and [SA1.xls]. *)
Lemma category_key_of_plain_name_check :
  category_key (py "data" ++ py "/" ++ py "SA1" ++ py ".xls") = py "SA1"
  ∧ category_key (py "SA1" ++ py ".xls") = py "SA1".
Proof.
  apply category_key_of_plain_name; vm_compute; intros Hin;
    repeat (apply elem_of_cons in Hin as [Hin|Hin]; [discriminate Hin|]);
    by apply elem_of_nil in Hin.
Defined.

(** X15 on a roster that holds the scenario's student twice, from two
    files. *)
Lemma rows_of_one_student_number_share_scores_check :
  let again := {| student_id := py "20230001A"; student_name := py "Alice L.";
                  original_seq := py "7"; class_info := [];
                  gender_info := []; source_file := py "CL2.xls" |} in
  let sa := (collect_keyed [sheet_file (py "SA1.xls") (scenario_scores 85)]).1 in
  let df := merge_scores [scenario_record; again] sa ∅ ∅ in
  ∃ row row', df_rows df !! 0 = Some row ∧ df_rows df !! 1 = Some row'
              ∧ drop 7 row = drop 7 row'.
Proof.
  intros again sa df. eexists _, _. split; [reflexivity|]. split; [reflexivity|].
  by apply (rows_of_one_student_number_share_scores
              [scenario_record; again] sa ∅ ∅ 0 1 scenario_record again).
Defined.
(** X16 on a purely numeric student number and on one with a decimal
    point. *)
Lemma numeric_student_numbers_are_rejected_check :
  valid_student_id (py "20230001") = false
  ∧ valid_student_id (py "20230001.0") = false.
Proof.
  split; apply numeric_student_numbers_are_rejected; try reflexivity;
    right; apply (bool_decide_unpack _); vm_compute; exact I.
Defined.
End FurtherChecks.
